(** * SK stock management: the store operations of [App.tsx], the cart of
    [POS.tsx] and the product query of [Inventory.tsx], embedded in Rocq.

    Conventions of the embedding.
    - A React state cell is a field of [AppState]; an event handler is a
      function [AppState -> AppState] that applies the handler's functional
      updates ([setX(prev => ...)]) in program order.  Tests of the closure
      value ([categories.includes(...)], [isAdmin]) read the state the handler
      was created in, which is the argument state.
    - Stock quantities are JavaScript numbers holding integers: [Z].  Prices
      and money amounts are JavaScript numbers held by their exact rational
      value: [Q].  The products and sums of the POS screen are rounded to
      binary64 as the language does ([js_mul], [js_add]).
    - [new Date().toISOString()], [Date.now()] and [Math.random()] are read
      from an explicit [Env] argument; one handler call sees one [Env]. *)

From Stdlib Require Import List ZArith QArith String Ascii Bool Lia.
From Stdlib Require Import Permutation Sorted SpecFloat.
Import ListNotations.

Local Open Scope Z_scope.

(** ** types.ts *)

Inductive LogType := RESTOCK | SALE | ADJUSTMENT | INITIAL.

Module StockLog.
Record t := mk
    { id : string;
      timestamp : string;
      type : LogType;
      amount : Z;
      balance : Z;
      reason : option string }.
End StockLog.

Module Product.
Record t := mk
    { id : string;
      name : string;
      sku : string;
      category : string;
      buyPrice : Q;
      marginPercent : Q;
      sellPrice : Q;
      stock : Z;
      minStock : Z;
      description : string;
      lastRestocked : string;
      stockHistory : list StockLog.t }.

  (** [{ ...p, stock: s, stockHistory: h }] *)
Definition with_stock (p : t) (s : Z) (h : list StockLog.t) : t :=
    mk (id p) (name p) (sku p) (category p) (buyPrice p) (marginPercent p)
       (sellPrice p) s (minStock p) (description p) (lastRestocked p) h.

  (** [{ ...p, stock: s, lastRestocked: d, stockHistory: h }] *)
Definition with_restock (p : t) (s : Z) (d : string) (h : list StockLog.t) : t :=
    mk (id p) (name p) (sku p) (category p) (buyPrice p) (marginPercent p)
       (sellPrice p) s (minStock p) (description p) d h.

  (** [{ ...p, stockHistory: h }] *)
Definition with_history (p : t) (h : list StockLog.t) : t :=
    with_stock p (stock p) h.

  (** [{ ...p, category: c }] *)
Definition with_category (p : t) (c : string) : t :=
    mk (id p) (name p) (sku p) c (buyPrice p) (marginPercent p)
       (sellPrice p) (stock p) (minStock p) (description p) (lastRestocked p)
       (stockHistory p).
End Product.

(** [Partial<Product>]: every field may be absent. *)
Module PartialProduct.
Record t := mk
    { id : option string;
      name : option string;
      sku : option string;
      category : option string;
      buyPrice : option Q;
      marginPercent : option Q;
      sellPrice : option Q;
      stock : option Z;
      minStock : option Z;
      description : option string;
      lastRestocked : option string;
      stockHistory : option (list StockLog.t) }.

End PartialProduct.

Module Customer.
Record t := mk
    { id : string;
      name : string;
      address : string;
      phone : string;
      email : option string }.
End Customer.

Module SaleItem.
Record t := mk
    { productId : string;
      name : string;
      quantity : Z;
      price : Q;
      total : Q;
      returnedQuantity : option Z }.

  (** [{ ...item, returnedQuantity: r }] *)
Definition with_returned (i : t) (r : Z) : t :=
    mk (productId i) (name i) (quantity i) (price i) (total i) (Some r).

  (** [{ ...item, quantity: q, total: tot }] *)
Definition with_quantity (i : t) (q : Z) (tot : Q) : t :=
    mk (productId i) (name i) q (price i) tot (returnedQuantity i).
End SaleItem.

Inductive PaymentMethod := Cash | Card | Transfer.

Module Sale.
Record t := mk
    { id : string;
      timestamp : string;
      customerName : option string;
      customerAddress : option string;
      customerPhone : option string;
      items : list SaleItem.t;
      subtotal : Q;
      tax : Q;
      total : Q;
      paymentMethod : PaymentMethod;
      processedBy : option string }.

  (** [{ ...s, items: its }] *)
Definition with_items (s : t) (its : list SaleItem.t) : t :=
    mk (id s) (timestamp s) (customerName s) (customerAddress s)
       (customerPhone s) its (subtotal s) (tax s) (total s)
       (paymentMethod s) (processedBy s).

  (** [{ ...s, processedBy: who }] *)
Definition with_processedBy (s : t) (who : option string) : t :=
    mk (id s) (timestamp s) (customerName s) (customerAddress s)
       (customerPhone s) (items s) (subtotal s) (tax s) (total s)
       (paymentMethod s) who.
End Sale.

Inductive UserRole := ADMIN | SALESPERSON.

Module User.
Record t := mk
    { id : string;
      username : string;
      role : UserRole;
      fullName : string }.
End User.

(** [{ productId, quantity }], a line of a return request. *)
Module ReturnLine.
Record t := mk
    { productId : string;
      quantity : Z }.
End ReturnLine.

(** ** The clock and the random source *)

Record Env := mkEnv
  { isoNow : string;   (* new Date().toISOString() *)
    msNow : string;    (* `${Date.now()}` *)
    rand5 : string     (* Math.random().toString(36).substr(2, 5) *) }.

(** ** JavaScript helpers *)

(** [xs.includes(x)] on an array of strings. *)
Definition includes (xs : list string) (x : string) : bool :=
  existsb (String.eqb x) xs.

(** [s.slice(-n)]: the last [n] characters, the whole string when shorter. *)
Definition slice_last (n : nat) (s : string) : string :=
  substring (String.length s - n) n s.

(** [x || 0] on an optional number. *)
Definition or0 (x : option Z) : Z :=
  match x with Some v => v | None => 0 end.

(** Binary64 arithmetic.  A number is converted to the nearest binary64
    value (exactly, when it already is one), the operation is the IEEE 754
    one of the standard library's specification, and the result is read back
    as its exact rational value.  Infinities and NaN, which amounts of money
    do not reach, are read back as 0. *)
Definition js_of_Z (z : Z) : spec_float := binary_normalize 53 1024 z 0 false.

Definition js_of_Q (q : Q) : spec_float :=
  SFdiv 53 1024 (js_of_Z (Qnum q)) (js_of_Z (Zpos (Qden q))).

Definition Q_of_js (f : spec_float) : Q :=
  match f with
  | S754_finite s m e =>
      let mz := if s then Zneg m else Zpos m in
      Qred (if 0 <=? e then (mz * 2 ^ e) # 1 else mz # Z.to_pos (2 ^ (- e)))
  | _ => 0%Q
  end.

(** [a * b] and [a + b] on numbers. *)
Definition js_mul (a b : Q) : Q := Q_of_js (SFmul 53 1024 (js_of_Q a) (js_of_Q b)).

Definition js_add (a b : Q) : Q := Q_of_js (SFadd 53 1024 (js_of_Q a) (js_of_Q b)).

(** [Array.prototype.sort(cmp)].  The language standard requires the sort to
    be stable; for a comparator that is a consistent ordering its result is
    the stable sorted arrangement, computed here by insertion from the right:
    an element goes in front of the first element it does not exceed. *)
Section JsSort.
Context {A : Type} (cmp : A -> A -> Z).

Fixpoint js_insert (a : A) (l : list A) : list A :=
    match l with
    | [] => [a]
    | y :: l' => if cmp a y <=? 0 then a :: y :: l' else y :: js_insert a l'
    end.

Definition js_sort (l : list A) : list A := fold_right js_insert [] l.
End JsSort.

(** The default comparator of [sort()] on strings: code-unit order. *)
Definition default_cmp (a b : string) : Z :=
  match String.compare a b with Lt => -1 | Eq => 0 | Gt => 1 end.

(** ** App.tsx: the state *)

Record AppState := mkState
  { currentUser : option User.t;
    products : list Product.t;
    sales : list Sale.t;
    customers : list Customer.t;
    categories : list string }.

Definition setProducts (f : list Product.t -> list Product.t) (st : AppState) : AppState :=
  mkState (currentUser st) (f (products st)) (sales st) (customers st) (categories st).

Definition setSales (f : list Sale.t -> list Sale.t) (st : AppState) : AppState :=
  mkState (currentUser st) (products st) (f (sales st)) (customers st) (categories st).

Definition setCustomers (f : list Customer.t -> list Customer.t) (st : AppState) : AppState :=
  mkState (currentUser st) (products st) (sales st) (f (customers st)) (categories st).

Definition setCategories (f : list string -> list string) (st : AppState) : AppState :=
  mkState (currentUser st) (products st) (sales st) (customers st) (f (categories st)).

(** [currentUser?.role === UserRole.ADMIN] *)
Definition isAdmin (st : AppState) : bool :=
  match currentUser st with
  | Some u => match User.role u with ADMIN => true | SALESPERSON => false end
  | None => false
  end.

(** [{ ...p, ...updates }] *)
Definition merge (p : Product.t) (u : PartialProduct.t) : Product.t :=
  let pick {T} (o : option T) (d : T) : T := match o with Some v => v | None => d end in
  Product.mk
    (pick (PartialProduct.id u) (Product.id p))
    (pick (PartialProduct.name u) (Product.name p))
    (pick (PartialProduct.sku u) (Product.sku p))
    (pick (PartialProduct.category u) (Product.category p))
    (pick (PartialProduct.buyPrice u) (Product.buyPrice p))
    (pick (PartialProduct.marginPercent u) (Product.marginPercent p))
    (pick (PartialProduct.sellPrice u) (Product.sellPrice p))
    (pick (PartialProduct.stock u) (Product.stock p))
    (pick (PartialProduct.minStock u) (Product.minStock p))
    (pick (PartialProduct.description u) (Product.description p))
    (pick (PartialProduct.lastRestocked u) (Product.lastRestocked p))
    (pick (PartialProduct.stockHistory u) (Product.stockHistory p)).

(** ** App.tsx: category handlers *)

Definition addCategory (name : string) (st : AppState) : AppState :=
  if negb (isAdmin st) then st
  else if negb (includes (categories st) name)
  then setCategories (fun prev => js_sort default_cmp (prev ++ [name])) st
  else st.

Definition renameCategory (oldName newName : string) (st : AppState) : AppState :=
  if negb (isAdmin st) then st
  else if includes (categories st) newName then st
  else
    let st1 :=
      setCategories (fun prev =>
        js_sort default_cmp
          (map (fun c => if String.eqb c oldName then newName else c) prev)) st in
    setProducts
      (map (fun p => if String.eqb (Product.category p) oldName
                     then Product.with_category p newName else p)) st1.

Definition deleteCategory (name : string) (st : AppState) : AppState :=
  if negb (isAdmin st) then st
  else
    let st1 := setCategories (filter (fun c => negb (String.eqb c name))) st in
    let st2 :=
      setProducts
        (map (fun p => if String.eqb (Product.category p) name
                       then Product.with_category p "General" else p)) st1 in
    if negb (includes (categories st) "General")
    then setCategories (fun prev =>
           js_sort default_cmp
             ("General"%string :: filter (fun c => negb (String.eqb c name)) prev)) st2
    else st2.

(** ** App.tsx: product handlers.  The nested call of [addCategory] runs in
    the same closure; the product update queued before it leaves the user and
    the categories as they were, so the call is applied to the updated state. *)

Definition addProduct (env : Env) (p : Product.t) (st : AppState) : AppState :=
  if negb (isAdmin st) then st
  else
    let initialLog :=
      StockLog.mk ("LOG-" ++ msNow env ++ "-" ++ rand5 env) (isoNow env)
        INITIAL (Product.stock p) (Product.stock p) None in
    let st1 :=
      setProducts (fun prev => prev ++ [Product.with_history p [initialLog]]) st in
    if negb (includes (categories st) (Product.category p))
    then addCategory (Product.category p) st1
    else st1.

Definition updateOne (env : Env) (updated p : Product.t) : Product.t :=
  if String.eqb (Product.id p) (Product.id updated) then
    let history := Product.stockHistory p in
    if negb (Product.stock updated =? Product.stock p) then
      let log :=
        StockLog.mk ("LOG-" ++ msNow env) (isoNow env) ADJUSTMENT
          (Product.stock updated - Product.stock p) (Product.stock updated)
          (Some "Manual Update"%string) in
      Product.with_history updated (log :: history)
    else Product.with_history updated history
  else p.

Definition updateProduct (env : Env) (updated : Product.t) (st : AppState) : AppState :=
  if negb (isAdmin st) then st
  else
    let st1 := setProducts (map (updateOne env updated)) st in
    if negb (includes (categories st) (Product.category updated))
    then addCategory (Product.category updated) st1
    else st1.

Definition bulkUpdateProducts (productIds : list string) (updates : PartialProduct.t)
    (st : AppState) : AppState :=
  if negb (isAdmin st) then st
  else
    setProducts
      (map (fun p => if includes productIds (Product.id p) then merge p updates else p)) st.

Definition adjustOne (env : Env) (id : string) (amount : Z) (reason : string)
    (p : Product.t) : Product.t :=
  if String.eqb (Product.id p) id then
    let newStock := Z.max 0 (Product.stock p + amount) in
    let log :=
      StockLog.mk ("LOG-" ++ msNow env ++ "-" ++ Product.id p) (isoNow env)
        ADJUSTMENT amount newStock (Some reason) in
    Product.with_stock p newStock (log :: Product.stockHistory p)
  else p.

Definition adjustStock (env : Env) (id : string) (amount : Z) (reason : string)
    (st : AppState) : AppState :=
  if negb (isAdmin st) then st
  else setProducts (map (adjustOne env id amount reason)) st.

Definition deleteProduct (id : string) (st : AppState) : AppState :=
  if negb (isAdmin st) then st
  else setProducts (filter (fun p => negb (String.eqb (Product.id p) id))) st.

(** ** App.tsx: sales and returns *)

Definition sellOne (env : Env) (sale : Sale.t) (p : Product.t) : Product.t :=
  match find (fun item => String.eqb (SaleItem.productId item) (Product.id p))
             (Sale.items sale) with
  | Some soldItem =>
      let newStock := Product.stock p - SaleItem.quantity soldItem in
      let log :=
        StockLog.mk ("LOG-" ++ msNow env ++ "-" ++ Product.id p) (isoNow env)
          SALE (- SaleItem.quantity soldItem) newStock None in
      Product.with_stock p newStock (log :: Product.stockHistory p)
  | None => p
  end.

Definition completeSale (env : Env) (sale : Sale.t) (st : AppState) : AppState :=
  let processedSale :=
    Sale.with_processedBy sale (option_map User.fullName (currentUser st)) in
  let st1 := setProducts (map (sellOne env sale)) st in
  setSales (fun prev => processedSale :: prev) st1.

Definition returnItem (returns : list ReturnLine.t) (item : SaleItem.t) : SaleItem.t :=
  match find (fun r => String.eqb (ReturnLine.productId r) (SaleItem.productId item))
             returns with
  | Some returnInfo =>
      SaleItem.with_returned item
        (or0 (SaleItem.returnedQuantity item) + ReturnLine.quantity returnInfo)
  | None => item
  end.

Definition returnSale (saleId : string) (returns : list ReturnLine.t) (s : Sale.t) : Sale.t :=
  if String.eqb (Sale.id s) saleId
  then Sale.with_items s (map (returnItem returns) (Sale.items s))
  else s.

Definition returnOne (env : Env) (saleId : string) (ret : ReturnLine.t)
    (p : Product.t) : Product.t :=
  if String.eqb (Product.id p) (ReturnLine.productId ret) then
    let newStock := Product.stock p + ReturnLine.quantity ret in
    let log :=
      StockLog.mk ("LOG-RET-" ++ msNow env ++ "-" ++ Product.id p) (isoNow env)
        RESTOCK (ReturnLine.quantity ret) newStock
        (Some ("Return from Sale #" ++ slice_last 6 saleId)%string) in
    Product.with_stock p newStock (log :: Product.stockHistory p)
  else p.

Definition processReturn (env : Env) (saleId : string) (returns : list ReturnLine.t)
    (st : AppState) : AppState :=
  if negb (isAdmin st) then st
  else
    let st1 := setSales (map (returnSale saleId returns)) st in
    fold_left (fun acc ret => setProducts (map (returnOne env saleId ret)) acc)
      returns st1.

Definition restockOne (env : Env) (id : string) (amount : Z) (p : Product.t) : Product.t :=
  if String.eqb (Product.id p) id then
    let newStock := Product.stock p + amount in
    let log :=
      StockLog.mk ("LOG-" ++ msNow env ++ "-" ++ rand5 env) (isoNow env)
        RESTOCK amount newStock None in
    Product.with_restock p newStock (isoNow env) (log :: Product.stockHistory p)
  else p.

Definition restockProduct (env : Env) (id : string) (amount : Z) (st : AppState) : AppState :=
  if negb (isAdmin st) then st
  else setProducts (map (restockOne env id amount)) st.

Definition saveCustomer (customer : Customer.t) (st : AppState) : AppState :=
  setCustomers (fun prev =>
    match find (fun c => String.eqb (Customer.id c) (Customer.id customer)) prev with
    | Some _ =>
        map (fun c => if String.eqb (Customer.id c) (Customer.id customer)
                      then customer else c) prev
    | None => prev ++ [customer]
    end) st.

(** ** POS.tsx: the cart *)

Module ScannedOrderItem.
Record t := mk
  { name : string;
    quantity : Z;
    price : Q;
    matchedProduct : option Product.t;
    selected : bool }.
End ScannedOrderItem.

Definition Cart := list SaleItem.t.

Definition addToCart (product : Product.t) (cart : Cart) : Cart :=
  match find (fun item => String.eqb (SaleItem.productId item) (Product.id product)) cart with
  | Some existing =>
      if SaleItem.quantity existing >=? Product.stock product then cart
      else
        map (fun item =>
               if String.eqb (SaleItem.productId item) (Product.id product)
               then SaleItem.with_quantity item (SaleItem.quantity item + 1)
                      (js_mul (inject_Z (SaleItem.quantity item + 1)) (SaleItem.price item))
               else item) cart
  | None =>
      cart ++ [SaleItem.mk (Product.id product) (Product.name product) 1
                 (Product.sellPrice product) (Product.sellPrice product) None]
  end.

(** [xs.filter(Boolean)] after a [map] that may produce [null]. *)
Fixpoint compact {T : Type} (xs : list (option T)) : list T :=
  match xs with
  | [] => []
  | Some x :: r => x :: compact r
  | None :: r => compact r
  end.

Definition updateQuantity (prods : list Product.t) (productId : string) (delta : Z)
    (prevCart : Cart) : Cart :=
  compact
    (map (fun item =>
            if String.eqb (SaleItem.productId item) productId then
              let newQty := Z.max 0 (SaleItem.quantity item + delta) in
              let prod := find (fun p => String.eqb (Product.id p) productId) prods in
              if newQty >? or0 (option_map Product.stock prod) then Some item
              else if newQty =? 0 then None
              else Some (SaleItem.with_quantity item newQty
                           (js_mul (inject_Z newQty) (SaleItem.price item)))
            else Some item) prevCart).

(** Assignment to the fields of the first element that satisfies [f]: the
    object [find] returned is the one stored in the array. *)
Fixpoint update_first {T : Type} (f : T -> bool) (g : T -> T) (xs : list T) : list T :=
  match xs with
  | [] => []
  | x :: r => if f x then g x :: r else x :: update_first f g r
  end.

Definition addScannedStep (newCart : Cart) (item : ScannedOrderItem.t) : Cart :=
  match ScannedOrderItem.matchedProduct item with
  | None => newCart
  | Some prod =>
      let isProd := fun c => String.eqb (SaleItem.productId c) (Product.id prod) in
      let qtyToAdd := Z.min (ScannedOrderItem.quantity item) (Product.stock prod) in
      match find isProd newCart with
      | Some _ =>
          update_first isProd
            (fun existing =>
               let q := Z.min (SaleItem.quantity existing + qtyToAdd) (Product.stock prod) in
               SaleItem.with_quantity existing q
                 (js_mul (inject_Z q) (SaleItem.price existing)))
            newCart
      | None =>
          newCart ++ [SaleItem.mk (Product.id prod) (Product.name prod) qtyToAdd
                        (Product.sellPrice prod)
                        (js_mul (inject_Z qtyToAdd) (Product.sellPrice prod)) None]
      end
  end.

Definition addScannedToCart (scannedItems : list ScannedOrderItem.t) (cart : Cart) : Cart :=
  let toAdd :=
    filter (fun i => ScannedOrderItem.selected i &&
                     match ScannedOrderItem.matchedProduct i with
                     | Some _ => true | None => false end) scannedItems in
  fold_left addScannedStep toAdd cart.

(** [cart.reduce((acc, item) => acc + item.total, 0)] *)
Definition cartSubtotal (cart : Cart) : Q :=
  fold_left (fun acc item => js_add acc (SaleItem.total item)) cart 0%Q.

(** [subtotal * 0.05]: the literal is the binary64 value nearest to 5/100. *)
Definition cartTax (cart : Cart) : Q := js_mul (cartSubtotal cart) (5 # 100).

Definition cartTotal (cart : Cart) : Q := js_add (cartSubtotal cart) (cartTax cart).

Record PosState := mkPos
  { cart : Cart;
    customerName : string;
    customerAddress : string;
    customerPhone : string;
    paymentMethod : PaymentMethod;
    completedSale : option Sale.t }.

(** The sale object [handleFinish] builds from the current cart. *)
Definition buildSale (env : Env) (pos : PosState) : Sale.t :=
  Sale.mk ("SALE-" ++ msNow env) (isoNow env)
    (Some (if String.eqb (customerName pos) "" then "Walk-in Customer"%string
           else customerName pos))
    (Some (customerAddress pos)) (Some (customerPhone pos))
    (cart pos) (cartSubtotal (cart pos)) (cartTax (cart pos)) (cartTotal (cart pos))
    (paymentMethod pos) None.

(** [handleFinish], with [onComplete] bound to [completeSale] as [App.tsx]
    binds it. *)
Definition handleFinish (env : Env) (pos : PosState) (st : AppState) : PosState * AppState :=
  match cart pos with
  | [] => (pos, st)
  | _ :: _ =>
      let sale := buildSale env pos in
      (mkPos [] "" "" "" (paymentMethod pos) (Some sale), completeSale env sale st)
  end.

(** Carts the three cart handlers can build, starting from the empty cart. *)
Inductive CartReachable : Cart -> Prop :=
| cart_empty : CartReachable []
| cart_add : forall product c,
    CartReachable c -> CartReachable (addToCart product c)
| cart_update : forall prods productId delta c,
    CartReachable c -> CartReachable (updateQuantity prods productId delta c)
| cart_scanned : forall scanned c,
    CartReachable c -> CartReachable (addScannedToCart scanned c).

(** ** Inventory.tsx: sort configuration and the product query *)

(** The scalar fields of [Product]; the table offers headers for [name],
    [category], [buyPrice], [marginPercent], [sellPrice] and [stock]. *)
Inductive ProductKey :=
| KId | KName | KSku | KCategory | KBuyPrice | KMarginPercent | KSellPrice
| KStock | KMinStock | KDescription | KLastRestocked.

Definition ProductKey_eqb (a b : ProductKey) : bool :=
  match a, b with
  | KId, KId | KName, KName | KSku, KSku | KCategory, KCategory
  | KBuyPrice, KBuyPrice | KMarginPercent, KMarginPercent
  | KSellPrice, KSellPrice | KStock, KStock | KMinStock, KMinStock
  | KDescription, KDescription | KLastRestocked, KLastRestocked => true
  | _, _ => false
  end.

Inductive Direction := asc | desc.

(** [SortDirection = 'asc' | 'desc' | null] *)
Definition SortDirection := option Direction.

Record SortConfig := mkSort
  { key : ProductKey;
    direction : SortDirection }.

Fixpoint findIndex {T : Type} (f : T -> bool) (xs : list T) : option nat :=
  match xs with
  | [] => None
  | x :: r => if f x then Some 0%nat else option_map S (findIndex f r)
  end.

(** [xs[i] = v] for an index inside the array. *)
Fixpoint set_nth {T : Type} (i : nat) (v : T) (xs : list T) : list T :=
  match xs, i with
  | [], _ => []
  | _ :: r, O => v :: r
  | x :: r, S j => x :: set_nth j v r
  end.

(** [xs.splice(i, 1)] *)
Fixpoint splice1 {T : Type} (i : nat) (xs : list T) : list T :=
  match xs, i with
  | [], _ => []
  | _ :: r, O => r
  | x :: r, S j => x :: splice1 j r
  end.

Definition handleSort (k : ProductKey) (isShift : bool) (prev : list SortConfig)
    : list SortConfig :=
  let existingIdx := findIndex (fun c => ProductKey_eqb (key c) k) prev in
  let nextDirection : SortDirection :=
    match existingIdx with
    | Some i =>
        match option_map direction (nth_error prev i) with
        | Some (Some asc) => Some desc
        | Some (Some desc) => None
        | _ => Some asc
        end
    | None => Some asc
    end in
  if negb isShift then
    match nextDirection with
    | Some d => [mkSort k (Some d)]
    | None => []
    end
  else
    match existingIdx, nextDirection with
    | Some i, Some d => set_nth i (mkSort k (Some d)) prev
    | Some i, None => splice1 i prev
    | None, Some d => prev ++ [mkSort k (Some d)]
    | None, None => prev
    end.

Inductive JsValue :=
| JsString (s : string)
| JsNumber (q : Q).

(** [p[key]] *)
Definition getField (k : ProductKey) (p : Product.t) : JsValue :=
  match k with
  | KId => JsString (Product.id p)
  | KName => JsString (Product.name p)
  | KSku => JsString (Product.sku p)
  | KCategory => JsString (Product.category p)
  | KBuyPrice => JsNumber (Product.buyPrice p)
  | KMarginPercent => JsNumber (Product.marginPercent p)
  | KSellPrice => JsNumber (Product.sellPrice p)
  | KStock => JsNumber (inject_Z (Product.stock p))
  | KMinStock => JsNumber (inject_Z (Product.minStock p))
  | KDescription => JsString (Product.description p)
  | KLastRestocked => JsString (Product.lastRestocked p)
  end.

(** [toLowerCase] on the ASCII letters. *)
Definition lower_ascii (c : ascii) : ascii :=
  let n := nat_of_ascii c in
  if ((65 <=? n)%nat && (n <=? 90)%nat)%bool then ascii_of_nat (n + 32) else c.

Fixpoint toLowerCase (s : string) : string :=
  match s with
  | EmptyString => EmptyString
  | String c r => String (lower_ascii c) (toLowerCase r)
  end.

(** [s.includes(sub)] on strings. *)
Definition str_includes (s sub : string) : bool :=
  match String.index 0 sub s with Some _ => true | None => false end.

(** [valA < valB] for two values of one field: both are strings or both are
    numbers, the mixed rows are never reached. *)
Definition js_lt (a b : JsValue) : bool :=
  match a, b with
  | JsString s, JsString t => String.ltb s t
  | JsNumber x, JsNumber y => match (x ?= y)%Q with Lt => true | _ => false end
  | _, _ => false
  end.

Definition lowerIfStrings (a b : JsValue) : JsValue * JsValue :=
  match a, b with
  | JsString s, JsString t => (JsString (toLowerCase s), JsString (toLowerCase t))
  | _, _ => (a, b)
  end.

(** The comparator passed to [sort]. *)
Fixpoint compareProducts (sortConfigs : list SortConfig) (a b : Product.t) : Z :=
  match sortConfigs with
  | [] => 0
  | config :: rest =>
      match direction config with
      | None => compareProducts rest a b
      | Some d =>
          let (valA, valB) :=
            lowerIfStrings (getField (key config) a) (getField (key config) b) in
          if js_lt valA valB then match d with asc => -1 | desc => 1 end
          else if js_lt valB valA then match d with asc => 1 | desc => -1 end
          else compareProducts rest a b
      end
  end.




Definition matchesQuery (searchTerm selectedCategory : string) (p : Product.t) : bool :=
  let matchesSearch :=
    str_includes (toLowerCase (Product.name p)) (toLowerCase searchTerm)
    || str_includes (toLowerCase (Product.sku p)) (toLowerCase searchTerm)
    || (negb (String.eqb (Product.description p) "")
        && str_includes (toLowerCase (Product.description p)) (toLowerCase searchTerm)) in
  let matchesCategory :=
    String.eqb selectedCategory "All" || String.eqb (Product.category p) selectedCategory in
  matchesSearch && matchesCategory.

Definition filteredProducts (prods : list Product.t) (searchTerm selectedCategory : string)
    (sortConfigs : list SortConfig) : list Product.t :=
  let result := filter (matchesQuery searchTerm selectedCategory) prods in
  match sortConfigs with
  | [] => result
  | _ :: _ => js_sort (compareProducts sortConfigs) result
  end.

(** ** SalesHistory.tsx: the return form *)

(** [handleReturnQtyChange]: the quantity kept for a line. *)
Definition clampReturnQty (qty max : Z) : Z := Z.min (Z.max 0 qty) max.

(** [item.quantity - (item.returnedQuantity || 0)] *)
Definition returnable (item : SaleItem.t) : Z :=
  SaleItem.quantity item - or0 (SaleItem.returnedQuantity item).

(** ** The stock ledger *)


(** [balance[i] = balance[i-1] + amount[i]] along the whole ledger; the
    oldest entry has [balance = amount]. *)
Fixpoint ledger_chain (h : list StockLog.t) : Prop :=
  match h with
  | [] => True
  | l :: older =>
      StockLog.balance l =
        match older with [] => 0 | prev :: _ => StockLog.balance prev end
        + StockLog.amount l
      /\ ledger_chain older
  end.

(** The oldest entry of a ledger. *)
Fixpoint oldest (h : list StockLog.t) : option StockLog.t :=
  match h with
  | [] => None
  | l :: older => match older with [] => Some l | _ :: _ => oldest older end
  end.

(** The ledger invariant of one product: a chained, non-empty ledger whose
    newest balance is the stock and whose oldest entry is the INITIAL one. *)
Definition ledger_ok (p : Product.t) : Prop :=
  ledger_chain (Product.stockHistory p) /\
  match Product.stockHistory p with
  | [] => False
  | l :: _ => StockLog.balance l = Product.stock p
  end /\
  option_map StockLog.type (oldest (Product.stockHistory p)) = Some INITIAL.

(** [0 <= returnedQuantity <= quantity] for one sale item. *)
Definition return_bound (item : SaleItem.t) : Prop :=
  0 <= or0 (SaleItem.returnedQuantity item) <= SaleItem.quantity item.

(** The stocks stay non-negative. *)
Definition stocks_nonneg (ps : list Product.t) : Prop :=
  Forall (fun p => 0 <= Product.stock p) ps.


(** The quantity [completeSale] takes from product [p]: that of the first
    line naming it. *)
Definition soldQuantity (sale : Sale.t) (p : Product.t) : Z :=
  match find (fun item => String.eqb (SaleItem.productId item) (Product.id p))
             (Sale.items sale) with
  | Some soldItem => SaleItem.quantity soldItem
  | None => 0
  end.

(** The lines of a return request that name product [p]. *)
Definition linesFor (returns : list ReturnLine.t) (p : Product.t) : list ReturnLine.t :=
  filter (fun r => String.eqb (Product.id p) (ReturnLine.productId r)) returns.

Definition sumZ (xs : list Z) : Z := fold_right Z.add 0 xs.

(** The line totals added up from the left, as [reduce] does. *)
Definition totalsSum (c : Cart) : Q :=
  fold_left js_add (map SaleItem.total c) 0%Q.

(** The product updates of [processReturn], one line after the other, act on
    each product separately. *)
Definition applyReturns (env : Env) (saleId : string) (returns : list ReturnLine.t)
    (p : Product.t) : Product.t :=
  fold_left (fun q ret => returnOne env saleId ret q) returns p.

(** A cart line whose total is its quantity times its unit price: the
    binary64 product, or the price itself on a line of quantity 1 that the
    product tile has just created. *)
Definition line_ok (item : SaleItem.t) : Prop :=
  SaleItem.total item = js_mul (inject_Z (SaleItem.quantity item)) (SaleItem.price item) \/
  (SaleItem.quantity item = 1 /\ SaleItem.total item = SaleItem.price item).

(** ** Sample data *)

Definition admin : User.t := User.mk "U-1" "owner" ADMIN "Store Owner".
Definition clerk : User.t := User.mk "U-2" "clerk" SALESPERSON "Sales Clerk".

Definition env0 : Env := mkEnv "2024-03-01T10:00:00.000Z" "1709287200000" "k3x9q".
Definition env1 : Env := mkEnv "2024-03-02T09:30:00.000Z" "1709371800000" "p0w2z".

(** Product P of the scenario: stock 10, minimum stock 2, sold at 10. *)
Definition prodP : Product.t :=
  Product.mk "P" "Paper" "SKU-P" "General" 8 25 10 10 2 "A4 ream"
    "2024-02-01T08:00:00.000Z"
    [StockLog.mk "LOG-0" "2024-02-01T08:00:00.000Z" INITIAL 10 10 None].

Definition prodR : Product.t :=
  Product.mk "R" "Ribbon" "SKU-R" "General" 2 50 3 4 1 ""
    "2024-02-01T08:00:00.000Z"
    [StockLog.mk "LOG-1" "2024-02-01T08:00:00.000Z" INITIAL 4 4 None].

Definition itemP (q : Z) : SaleItem.t :=
  SaleItem.mk "P" "Paper" q 10 (inject_Z q * 10) None.

Definition itemR (q : Z) : SaleItem.t :=
  SaleItem.mk "R" "Ribbon" q 3 (inject_Z q * 3) None.

Definition saleOf (id : string) (its : list SaleItem.t) : Sale.t :=
  Sale.mk id "2024-03-01T09:59:00.000Z" (Some "Walk-in Customer"%string)
    (Some ""%string) (Some ""%string) its
    (cartSubtotal its) (cartTax its) (cartTotal its) Cash None.

Definition stAdmin : AppState := mkState (Some admin) [prodP; prodR] [] [] ["General"%string].
Definition stClerk : AppState := mkState (Some clerk) [prodP; prodR] [] [] ["General"%string].

(** The store after product P was sold three times over the counter. *)
Definition stSold : AppState := completeSale env0 (saleOf "SALE-1709287200000" [itemP 3]) stAdmin.

Definition pos3 : PosState :=
  mkPos (addToCart prodP (addToCart prodP (addToCart prodP []))) "" "" "" Cash None.

(** The POS screen with one Ribbon, priced 3, in the cart. *)
Definition posR : PosState := mkPos (addToCart prodR []) "" "" "" Cash None.

(** The Ribbon tile clicked five times while four are in stock. *)
Definition posR5 : PosState :=
  mkPos (addToCart prodR (addToCart prodR (addToCart prodR (addToCart prodR
           (addToCart prodR []))))) "" "" "" Cash None.

(** A sale request with one valid line and one line beyond the stock of 4. *)
Definition saleOver : Sale.t := saleOf "SALE-2" [itemP 3; itemR 9].

Definition saleId1 : string := "SALE-1709287200000".

(** A fresh store, and a product as the inventory form submits it. *)
Definition stEmpty : AppState := mkState (Some admin) [] [] [] [].

Definition prodN : Product.t :=
  Product.mk "N" "Notebook" "SKU-N" "General" 1 100 2 3 1 "" "2024-03-01T10:00:00.000Z" [].



(** What a ledger shows: kind, amount and balance of each entry. *)
Definition ledgerView (p : Product.t) : list (LogType * Z * Z) :=
  map (fun l => (StockLog.type l, StockLog.amount l, StockLog.balance l))
    (Product.stockHistory p).

(** ** POS.tsx: the product tiles and a cart built against a catalogue *)

(** [filteredProducts] of the POS screen: the tiles that can be clicked. *)
Definition posProducts (prods : list Product.t) (searchTerm : string) : list Product.t :=
  filter (fun p => 0 <? Product.stock p)
    (filter (fun p =>
               str_includes (toLowerCase (Product.name p)) (toLowerCase searchTerm)
               || str_includes (toLowerCase (Product.sku p)) (toLowerCase searchTerm))
       prods).

(** Carts built by hand on the POS screen while the catalogue is [prods]: a
    tile of [posProducts] is clicked or a quantity button is pressed.  Lines
    added from a scanned order are not among them: [addScannedToCart] neither
    looks at the stock nor at the catalogue of the moment. *)
Inductive CartBuilt (prods : list Product.t) : Cart -> Prop :=
| built_empty : CartBuilt prods []
| built_add : forall searchTerm product c,
    In product (posProducts prods searchTerm) ->
    CartBuilt prods c -> CartBuilt prods (addToCart product c)
| built_update : forall productId delta c,
    CartBuilt prods c -> CartBuilt prods (updateQuantity prods productId delta c).

(** A cart line stays within the stock of the catalogue product it names. *)
Definition line_in_stock (prods : list Product.t) (item : SaleItem.t) : Prop :=
  exists p,
    find (fun q => String.eqb (Product.id q) (SaleItem.productId item)) prods = Some p /\
    SaleItem.quantity item <= Product.stock p.

(** The return request that gives back every line of a sale in full. *)
Definition fullReturn (sale : Sale.t) : list ReturnLine.t :=
  map (fun i => ReturnLine.mk (SaleItem.productId i) (SaleItem.quantity i))
    (Sale.items sale).

(** ** SalesHistory.tsx *)

(** [Record<string, number>] as the list of its entries.  Assigning to a key
    keeps the place of a key that is present and puts a new key last (the
    order of [Object.entries] for keys that are not array indices). *)
Fixpoint rec_set (k : string) (v : Z) (r : list (string * Z)) : list (string * Z) :=
  match r with
  | [] => [(k, v)]
  | (k', v') :: rest =>
      if String.eqb k' k then (k, v) :: rest else (k', v') :: rec_set k v rest
  end.

Record HistoryState := mkHist
  { selectedSale : option Sale.t;
    isReturnMode : bool;
    returnQuantities : list (string * Z);
    isConfirmingReturn : bool }.

Definition PaymentMethod_eqb (a b : PaymentMethod) : bool :=
  match a, b with
  | Cash, Cash | Card, Card | Transfer, Transfer => true
  | _, _ => false
  end.

(** [s?.toLowerCase().includes(t)] on an optional string. *)
Definition opt_includes_lower (s : option string) (t : string) : bool :=
  match s with
  | Some v => str_includes (toLowerCase v) t
  | None => false
  end.

(** [paymentFilter] is ['All'] ([None]) or one of the payment methods. *)
Definition filteredSales (sls : list Sale.t) (searchTerm : string)
    (paymentFilter : option PaymentMethod) : list Sale.t :=
  filter (fun sale =>
            let matchesSearch :=
              str_includes (toLowerCase (Sale.id sale)) (toLowerCase searchTerm)
              || opt_includes_lower (Sale.customerName sale) (toLowerCase searchTerm)
              || opt_includes_lower (Sale.processedBy sale) (toLowerCase searchTerm) in
            let matchesPayment :=
              match paymentFilter with
              | None => true
              | Some m => PaymentMethod_eqb (Sale.paymentMethod sale) m
              end in
            matchesSearch && matchesPayment) sls.

Definition initialQtys (s : option Sale.t) : list (string * Z) :=
  match s with
  | Some sale =>
      fold_left (fun acc item => rec_set (SaleItem.productId item) 0 acc)
        (Sale.items sale) []
  | None => []
  end.

Definition handleReturnClick (st : AppState) (h : HistoryState) : HistoryState :=
  if negb (isAdmin st) then h
  else mkHist (selectedSale h) true (initialQtys (selectedSale h)) (isConfirmingReturn h).

Definition handleReturnQtyChange (productId : string) (qty max : Z) (h : HistoryState)
    : HistoryState :=
  mkHist (selectedSale h) (isReturnMode h)
    (rec_set productId (clampReturnQty qty max) (returnQuantities h))
    (isConfirmingReturn h).

(** The slider of a line calls [handleReturnQtyChange] with the line's
    product and its returnable quantity. *)
Definition slideReturnQty (item : SaleItem.t) (qty : Z) (h : HistoryState) : HistoryState :=
  handleReturnQtyChange (SaleItem.productId item) qty (returnable item) h.

(** The lines [submitReturn] sends: the entries with a positive quantity. *)
Definition returnLines (r : list (string * Z)) : list ReturnLine.t :=
  map (fun e => ReturnLine.mk (fst e) (snd e)) (filter (fun e => 0 <? snd e) r).

(** [submitReturn], with [onProcessReturn] bound to [processReturn]; [sales]
    in the handler is the list of the render the handler belongs to. *)
Definition submitReturn (env : Env) (h : HistoryState) (st : AppState)
    : HistoryState * AppState :=
  if negb (isAdmin st) then (h, st)
  else
    match selectedSale h with
    | None => (h, st)
    | Some sel =>
        match returnLines (returnQuantities h) with
        | [] => (mkHist (selectedSale h) false (returnQuantities h) (isConfirmingReturn h), st)
        | returns =>
            let st' := processReturn env (Sale.id sel) returns st in
            let updatedSale :=
              find (fun s => String.eqb (Sale.id s) (Sale.id sel)) (sales st) in
            (mkHist (match updatedSale with Some u => Some u | None => selectedSale h end)
               false (returnQuantities h) false, st')
        end
    end.

(** The return form of the selected sale: opened by [handleReturnClick],
    then changed by the sliders of the sale's lines. *)
Inductive FormReachable (st : AppState) (sel : Sale.t) : HistoryState -> Prop :=
| form_open : forall h,
    selectedSale h = Some sel -> isAdmin st = true ->
    FormReachable st sel (handleReturnClick st h)
| form_slide : forall item qty h,
    In item (Sale.items sel) ->
    FormReachable st sel h -> FormReachable st sel (slideReturnQty item qty h).

(** ** Reports.tsx: the movement report *)

Module CombinedStockLog.
Record t := mk
  { log : StockLog.t;
    productName : string }.
End CombinedStockLog.

Definition LogType_string (t : LogType) : string :=
  match t with
  | RESTOCK => "RESTOCK"
  | SALE => "SALE"
  | ADJUSTMENT => "ADJUSTMENT"
  | INITIAL => "INITIAL"
  end.

(** The movements of all products, each with its product's name, before
    sorting. *)
Definition combinedLogs (prods : list Product.t) : list CombinedStockLog.t :=
  flat_map (fun p => map (fun l => CombinedStockLog.mk l (Product.name p))
                       (Product.stockHistory p)) prods.

(** [allStockMovement]; [getTime ts] stands for [new Date(ts).getTime()]. *)
Definition allStockMovement (getTime : string -> Z) (prods : list Product.t)
    : list CombinedStockLog.t :=
  js_sort (fun a b => getTime (StockLog.timestamp (CombinedStockLog.log b))
                      - getTime (StockLog.timestamp (CombinedStockLog.log a)))
    (combinedLogs prods).

Definition filteredMovement (getTime : string -> Z) (prods : list Product.t)
    (movementSearch : string) : list CombinedStockLog.t :=
  filter (fun c =>
            str_includes (toLowerCase (CombinedStockLog.productName c))
              (toLowerCase movementSearch)
            || str_includes
                 (toLowerCase (LogType_string (StockLog.type (CombinedStockLog.log c))))
                 (toLowerCase movementSearch))
    (allStockMovement getTime prods).

(** ** Dashboard.tsx and Inventory.tsx: the low-stock list *)

Definition lowStockItems (prods : list Product.t) : list Product.t :=
  filter (fun p => Product.stock p <=? Product.minStock p) prods.

Definition custA : Customer.t := Customer.mk "CUST-1" "Ada" "1 Main St" "555-0101" None.

(** An entry of the return form that is within bounds for the sale [sel]:
    not negative, and at most the returnable quantity of the lines it names. *)
Definition entry_ok (sel : Sale.t) (e : string * Z) : Prop :=
  0 <= snd e /\
  forall item, In item (Sale.items sel) -> SaleItem.productId item = fst e ->
    snd e <= returnable item.

Definition sale_bounds (sls : list Sale.t) : Prop :=
  Forall (fun s => Forall return_bound (Sale.items s)) sls.

(** The record of the sale in [stSold], and the return form opened on it
    with the slider of its line pushed to 8. *)
Definition soldRecord : Sale.t :=
  Sale.with_processedBy (saleOf saleId1 [itemP 3]) (Some "Store Owner"%string).

Definition formP8 : HistoryState :=
  slideReturnQty (itemP 3) 8
    (handleReturnClick stSold (mkHist (Some soldRecord) false [] false)).

(** ** Inventory.tsx: confirming a scanned voucher *)

Module ScannedItem.
Record t := mk
  { name : string;
    sku : option string;
    quantity : Z;
    price : Q;
    matchedId : option string;
    matchedName : option string;
    isNew : bool;
    selected : bool }.
End ScannedItem.

(** The handlers of one render of [App], applied to the state as it stands
    when a queued update runs: the role and the [categories.includes] tests
    read the render's state [render], the functional updates act on [cur].
    With [cur = render] these are the handlers as modelled above. *)
Definition addCategoryIn (render : AppState) (name : string) (cur : AppState) : AppState :=
  if negb (isAdmin render) then cur
  else if negb (includes (categories render) name)
  then setCategories (fun prev => js_sort default_cmp (prev ++ [name])) cur
  else cur.

Definition addProductIn (render : AppState) (env : Env) (p : Product.t) (cur : AppState)
    : AppState :=
  if negb (isAdmin render) then cur
  else
    let initialLog :=
      StockLog.mk ("LOG-" ++ msNow env ++ "-" ++ rand5 env) (isoNow env)
        INITIAL (Product.stock p) (Product.stock p) None in
    let cur1 :=
      setProducts (fun prev => prev ++ [Product.with_history p [initialLog]]) cur in
    if negb (includes (categories render) (Product.category p))
    then addCategoryIn render (Product.category p) cur1
    else cur1.

Definition restockProductIn (render : AppState) (env : Env) (id : string) (amount : Z)
    (cur : AppState) : AppState :=
  if negb (isAdmin render) then cur
  else setProducts (map (restockOne env id amount)) cur.

(** The clock and the two random strings read while one scanned item is
    handled. *)
Record ScanEnv := mkScanEnv
  { clock : Env;
    rand4id : string;    (* Math.random().toString(36).substr(2, 4) *)
    rand4sku : string    (* the same, upper-cased, for a missing SKU *) }.

(** [s || d] on an optional string: absent and empty strings give [d]. *)
Definition str_or (s : option string) (d : string) : string :=
  match s with
  | Some v => if String.eqb v "" then d else v
  | None => d
  end.

(** The product [confirmRestock] creates for an item that matched nothing. *)
Definition scannedProduct (se : ScanEnv) (item : ScannedItem.t) : Product.t :=
  Product.mk ("PROD-" ++ msNow (clock se) ++ "-" ++ rand4id se)
    (ScannedItem.name item)
    (str_or (ScannedItem.sku item) ("AUTO-" ++ rand4sku se))
    "General" (ScannedItem.price item) 20 (js_mul (ScannedItem.price item) (12 # 10))
    (ScannedItem.quantity item) 5 "Imported via AI Scan" (isoNow (clock se)) [].

(** An optional string that is present and not empty. *)
Definition truthy (s : option string) : bool :=
  match s with
  | Some v => negb (String.eqb v "")
  | None => false
  end.

Definition confirmStep (render : AppState) (cur : AppState)
    (pick : ScanEnv * ScannedItem.t) : AppState :=
  let (se, item) := pick in
  if truthy (ScannedItem.matchedId item)
  then restockProductIn render (clock se) (str_or (ScannedItem.matchedId item) "")
         (ScannedItem.quantity item) cur
  else addProductIn render (clock se) (scannedProduct se item) cur.

(** [confirmRestock]: every call inside it goes to the handlers of the render
    the button belongs to. *)
Definition confirmRestock (scannedItems : list (ScanEnv * ScannedItem.t)) (st : AppState)
    : AppState :=
  if negb (isAdmin st) then st
  else
    fold_left (confirmStep st)
      (filter (fun pick => ScannedItem.selected (snd pick)) scannedItems) st.

(** The selected items of a voucher that matched no product. *)
Definition newItems (scannedItems : list (ScanEnv * ScannedItem.t))
    : list (ScanEnv * ScannedItem.t) :=
  filter (fun pick => negb (truthy (ScannedItem.matchedId (snd pick))))
    (filter (fun pick => ScannedItem.selected (snd pick)) scannedItems).

Definition scanA : ScanEnv * ScannedItem.t :=
  (mkScanEnv env0 "a1b2" "C3D4",
   ScannedItem.mk "Stapler" None 6 4 None None true true).

Definition scanB : ScanEnv * ScannedItem.t :=
  (mkScanEnv env1 "e5f6" "G7H8",
   ScannedItem.mk "Tape" (Some "SKU-T"%string) 9 1 None None true true).

(** A store whose category list is empty, as after deleting every category
    including General. *)
Definition stNoCategories : AppState := mkState (Some admin) [prodP] [] [] [].

(** The store after General was renamed to Office: Office is the only
    category and holds both products. *)
Definition stOffice : AppState := renameCategory "General" "Office" stAdmin.

(** Three of the four Ribbons sold: one is left, which is the minimum stock;
    then the last one sold as well. *)
Definition stLowR : AppState := completeSale env0 (saleOf "SALE-4" [itemR 3]) stAdmin.
Definition ribbonLow : Product.t := sellOne env0 (saleOf "SALE-4" [itemR 3]) prodR.
Definition ribbonOut : Product.t := sellOne env1 (saleOf "SALE-5" [itemR 1]) ribbonLow.

(** Nine of the ten reams of Paper sold: one is left, below the minimum of 2. *)
Definition stLowP : AppState := completeSale env0 (saleOf "SALE-6" [itemP 9]) stAdmin.
Definition paperLow : Product.t := sellOne env0 (saleOf "SALE-6" [itemP 9]) prodP.

(** * Properties *)

(** ** Shape of the handlers *)

Lemma isAdmin_setProducts f st : isAdmin (setProducts f st) = isAdmin st.
Proof. reflexivity. Qed.

Lemma products_addCategory name st : products (addCategory name st) = products st.
Proof.
  unfold addCategory.
  destruct (isAdmin st); simpl; [|reflexivity].
  destruct (includes (categories st) name); reflexivity.
Qed.

Lemma products_restock env id amount st :
  isAdmin st = true ->
  products (restockProduct env id amount st) = map (restockOne env id amount) (products st).
Proof. intros H. unfold restockProduct. rewrite H. reflexivity. Qed.

Lemma products_adjust env id amount reason st :
  isAdmin st = true ->
  products (adjustStock env id amount reason st)
  = map (adjustOne env id amount reason) (products st).
Proof. intros H. unfold adjustStock. rewrite H. reflexivity. Qed.

Lemma products_completeSale env sale st :
  products (completeSale env sale st) = map (sellOne env sale) (products st).
Proof. reflexivity. Qed.

Lemma sales_completeSale env sale st :
  sales (completeSale env sale st)
  = Sale.with_processedBy sale (option_map User.fullName (currentUser st)) :: sales st.
Proof. reflexivity. Qed.

Lemma fold_setProducts env saleId returns st :
  fold_left (fun acc ret => setProducts (map (returnOne env saleId ret)) acc) returns st
  = setProducts (map (applyReturns env saleId returns)) st.
Proof.
  revert st. induction returns as [|r rs IH]; intros st; simpl.
  - unfold setProducts, applyReturns. simpl. rewrite map_id. destruct st; reflexivity.
  - rewrite IH. unfold setProducts. simpl. rewrite map_map. reflexivity.
Qed.

Lemma processReturn_admin env saleId returns st :
  isAdmin st = true ->
  processReturn env saleId returns st
  = mkState (currentUser st) (map (applyReturns env saleId returns) (products st))
      (map (returnSale saleId returns) (sales st)) (customers st) (categories st).
Proof.
  intros H. unfold processReturn. rewrite H. simpl.
  rewrite fold_setProducts. reflexivity.
Qed.

Lemma sellOne_stock env sale p :
  Product.stock (sellOne env sale p) = Product.stock p - soldQuantity sale p.
Proof.
  unfold sellOne, soldQuantity.
  destruct (find _ (Sale.items sale)); simpl; lia.
Qed.

(** ** C10: the role gate *)

(** C10.  When the current user is not an ADMIN, restock, adjustStock,
    processReturn, addProduct, updateProduct, bulkUpdateProducts,
    deleteProduct and the three category handlers return the state they were
    given; completeSale, which has no role test, still records the sale and
    maps every product through the stock deduction, so the state changes. *)
Theorem non_admin_noop_except_completeSale (st : AppState) (H : isAdmin st = false) :
  (forall env id amount, restockProduct env id amount st = st) /\
  (forall env id amount reason, adjustStock env id amount reason st = st) /\
  (forall env saleId returns, processReturn env saleId returns st = st) /\
  (forall env p, addProduct env p st = st) /\
  (forall env updated, updateProduct env updated st = st) /\
  (forall ids updates, bulkUpdateProducts ids updates st = st) /\
  (forall id, deleteProduct id st = st) /\
  (forall name, addCategory name st = st) /\
  (forall oldName newName, renameCategory oldName newName st = st) /\
  (forall name, deleteCategory name st = st) /\
  (forall env sale,
      completeSale env sale st <> st /\
      sales (completeSale env sale st)
      = Sale.with_processedBy sale (option_map User.fullName (currentUser st)) :: sales st /\
      products (completeSale env sale st) = map (sellOne env sale) (products st) /\
      map Product.stock (products (completeSale env sale st))
      = map (fun p => Product.stock p - soldQuantity sale p) (products st)).
Proof.
  unfold restockProduct, adjustStock, processReturn, addProduct, updateProduct,
    bulkUpdateProducts, deleteProduct, addCategory, renameCategory, deleteCategory.
  rewrite H; cbn [negb].
  repeat (split; [reflexivity|]).
  intros env sale. split; [|split; [reflexivity|split; [reflexivity|]]].
  - intros E. apply (f_equal sales) in E. rewrite sales_completeSale in E.
    apply (f_equal (@List.length _)) in E. simpl in E. lia.
  - rewrite products_completeSale, map_map.
    apply map_ext. intros p. apply sellOne_stock.
Qed.

Lemma non_admin_noop_witness :
  isAdmin stClerk = false /\
  restockProduct env0 "P" 5 stClerk = stClerk /\
  map Product.stock (products (completeSale env0 (saleOf "SALE-1" [itemP 3]) stClerk))
  = [7; 4].
Proof.
  split; [reflexivity|].
  pose proof (non_admin_noop_except_completeSale stClerk eq_refl) as W.
  split.
  - apply (proj1 W).
  - destruct W as (_ & _ & _ & _ & _ & _ & _ & _ & _ & _ & W).
    destruct (W env0 (saleOf "SALE-1" [itemP 3])) as (_ & _ & _ & E).
    rewrite E. reflexivity.
Defined.

(** ** C4: restock *)

Lemma restockOne_hit env id amount p :
  Product.id p = id ->
  restockOne env id amount p
  = Product.with_restock p (Product.stock p + amount) (isoNow env)
      (StockLog.mk ("LOG-" ++ msNow env ++ "-" ++ rand5 env) (isoNow env)
         RESTOCK amount (Product.stock p + amount) None :: Product.stockHistory p).
Proof. intros <-. unfold restockOne. rewrite String.eqb_refl. reflexivity. Qed.

Lemma restockOne_miss env id amount p :
  Product.id p <> id -> restockOne env id amount p = p.
Proof.
  intros N. unfold restockOne.
  destruct (String.eqb_spec (Product.id p) id); [contradiction|reflexivity].
Qed.

(** C4, as the code has it.  [restockProduct] tests the role and nothing
    else: called by an ADMIN with any amount, positive or not, it puts a
    RESTOCK movement of that amount in front of the ledger of the product
    with the given id, sets the stock to stock + amount and the
    last-restocked date to the time of the call; other products and the
    other stores stay as they are. *)
Theorem restock_any_amount (env : Env) (id : string) (amount : Z) (st : AppState)
    (H : isAdmin st = true) :
  let st' := restockProduct env id amount st in
  sales st' = sales st /\ customers st' = customers st /\
  categories st' = categories st /\
  List.length (products st') = List.length (products st) /\
  forall k p, nth_error (products st) k = Some p ->
    exists p', nth_error (products st') k = Some p' /\
      (Product.id p <> id -> p' = p) /\
      (Product.id p = id ->
         Product.stock p' = Product.stock p + amount /\
         Product.lastRestocked p' = isoNow env /\
         exists log, Product.stockHistory p' = log :: Product.stockHistory p /\
           StockLog.type log = RESTOCK /\ StockLog.amount log = amount /\
           StockLog.balance log = Product.stock p + amount /\
           StockLog.timestamp log = isoNow env).
Proof.
  intros st'. subst st'. rewrite products_restock by exact H.
  unfold restockProduct. rewrite H. cbn [negb sales customers categories setProducts].
  repeat (split; [reflexivity|]). split; [apply length_map|].
  intros k p Hk. exists (restockOne env id amount p). split.
  - rewrite nth_error_map, Hk. reflexivity.
  - split; intros Hid.
    + apply restockOne_miss, Hid.
    + rewrite restockOne_hit by exact Hid. cbn.
      repeat (split; [reflexivity|]). eexists. repeat (split; [reflexivity|]). reflexivity.
Qed.

Lemma restock_any_amount_witness :
  isAdmin stAdmin = true /\
  exists p', nth_error (products (restockProduct env0 "P" 5 stAdmin)) 0 = Some p' /\
    Product.stock p' = 15.
Proof.
  split; [reflexivity|].
  destruct (restock_any_amount env0 "P" 5 stAdmin eq_refl) as (_ & _ & _ & _ & W).
  destruct (W 0%nat prodP eq_refl) as (p' & Hn & _ & Hhit).
  exists p'. split; [exact Hn|]. destruct (Hhit eq_refl) as (Hs & _). exact Hs.
Defined.

(** The claim of C4 fails for a non-positive amount: an ADMIN restock of -4
    on a stock of 10 is carried out, leaving 6 and a RESTOCK movement of -4. *)
Lemma restock_nonpositive_counterexample :
  -4 <= 0 /\
  restockProduct env0 "P" (-4) stAdmin <> stAdmin /\
  map Product.stock (products (restockProduct env0 "P" (-4) stAdmin)) = [6; 4] /\
  option_map (fun p => map (fun l => (StockLog.type l, StockLog.amount l, StockLog.balance l))
                          (Product.stockHistory p))
    (nth_error (products (restockProduct env0 "P" (-4) stAdmin)) 0)
  = Some [(RESTOCK, -4, 6); (INITIAL, 10, 10)].
Proof.
  split; [lia|]. split; [|split; reflexivity].
  intros E. apply (f_equal (fun s => map Product.stock (products s))) in E.
  discriminate E.
Qed.

(** ** C5: manual adjustment *)

Lemma adjustOne_hit env id amount reason p :
  Product.id p = id ->
  adjustOne env id amount reason p
  = Product.with_stock p (Z.max 0 (Product.stock p + amount))
      (StockLog.mk ("LOG-" ++ msNow env ++ "-" ++ Product.id p) (isoNow env)
         ADJUSTMENT amount (Z.max 0 (Product.stock p + amount)) (Some reason)
       :: Product.stockHistory p).
Proof. intros <-. unfold adjustOne. rewrite String.eqb_refl. reflexivity. Qed.

Lemma adjustOne_miss env id amount reason p :
  Product.id p <> id -> adjustOne env id amount reason p = p.
Proof.
  intros N. unfold adjustOne.
  destruct (String.eqb_spec (Product.id p) id); [contradiction|reflexivity].
Qed.

(** C5.  For an authorised caller, [adjustStock] on an existing product never
    rejects the request, whatever the sign of the amount: the product's new
    stock is max(0, stock + amount), and an ADJUSTMENT movement carrying the
    requested amount, the new stock as balance and the reason is put in front
    of its ledger. *)
Theorem adjustStock_clamps (env : Env) (id : string) (amount : Z) (reason : string)
    (st : AppState) (H : isAdmin st = true) :
  forall k p, nth_error (products st) k = Some p -> Product.id p = id ->
    exists p', nth_error (products (adjustStock env id amount reason st)) k = Some p' /\
      Product.stock p' = Z.max 0 (Product.stock p + amount) /\
      0 <= Product.stock p' /\
      exists log, Product.stockHistory p' = log :: Product.stockHistory p /\
        StockLog.type log = ADJUSTMENT /\ StockLog.amount log = amount /\
        StockLog.balance log = Product.stock p' /\
        StockLog.reason log = Some reason.
Proof.
  intros k p Hk Hid. rewrite products_adjust by exact H.
  exists (adjustOne env id amount reason p). split.
  - rewrite nth_error_map, Hk. reflexivity.
  - rewrite adjustOne_hit by exact Hid. cbn.
    split; [reflexivity|]. split; [lia|].
    eexists. repeat (split; [reflexivity|]). reflexivity.
Qed.

Lemma adjustStock_clamps_witness :
  isAdmin stAdmin = true /\
  exists p', nth_error (products (adjustStock env0 "P" (-25) "damaged" stAdmin)) 0 = Some p' /\
    Product.stock p' = 0.
Proof.
  split; [reflexivity|].
  destruct (adjustStock_clamps env0 "P" (-25) "damaged" stAdmin eq_refl 0%nat prodP
              eq_refl eq_refl) as (p' & Hn & Hs & _).
  exists p'. split; [exact Hn|exact Hs].
Defined.

(** ** C1: completing a sale *)

(** C1, as the code has it.  [completeSale] has no stock check and no
    failure path.  For every request it puts the sale record in front of the
    sale store and maps every product: a product named by a line loses the
    quantity of the first such line and gets a SALE movement with the negated
    quantity and the new stock as balance, other products stay as they are.
    The stocks after the call are all non-negative exactly when no product
    is asked for more than its stock. *)
Theorem completeSale_unchecked (env : Env) (sale : Sale.t) (st : AppState) :
  let st' := completeSale env sale st in
  sales st' = Sale.with_processedBy sale (option_map User.fullName (currentUser st))
              :: sales st /\
  customers st' = customers st /\ categories st' = categories st /\
  (forall k p, nth_error (products st) k = Some p ->
     exists p', nth_error (products st') k = Some p' /\
       Product.stock p' = Product.stock p - soldQuantity sale p /\
       match find (fun item => String.eqb (SaleItem.productId item) (Product.id p))
                  (Sale.items sale) with
       | Some soldItem =>
           exists log, Product.stockHistory p' = log :: Product.stockHistory p /\
             StockLog.type log = SALE /\
             StockLog.amount log = - SaleItem.quantity soldItem /\
             StockLog.balance log = Product.stock p - SaleItem.quantity soldItem
       | None => p' = p
       end) /\
  (stocks_nonneg (products st') <->
   Forall (fun p => soldQuantity sale p <= Product.stock p) (products st)).
Proof.
  cbv zeta. rewrite sales_completeSale, products_completeSale.
  split; [reflexivity|]. split; [reflexivity|]. split; [reflexivity|]. split.
  - intros k p Hk. exists (sellOne env sale p). split.
    + rewrite nth_error_map, Hk. reflexivity.
    + split; [apply sellOne_stock|].
      unfold sellOne. destruct (find _ (Sale.items sale)); [|reflexivity].
      eexists. cbn. repeat (split; [reflexivity|]). reflexivity.
  - unfold stocks_nonneg. rewrite Forall_map.
    split; intros F; rewrite Forall_forall in *; intros p Hp;
      specialize (F p Hp); rewrite sellOne_stock in *; lia.
Qed.

(** The claim of C1 fails when a line exceeds the stock: of the two lines,
    the second asks for 9 of a stock of 4; the sale is recorded all the same
    and both stocks are reduced, the second one to -5. *)
Lemma completeSale_oversell_counterexample :
  Exists (fun item => exists p, In p (products stClerk) /\
            Product.id p = SaleItem.productId item /\
            Product.stock p < SaleItem.quantity item) (Sale.items saleOver) /\
  map Product.stock (products (completeSale env0 saleOver stClerk)) = [7; -5] /\
  List.length (sales (completeSale env0 saleOver stClerk)) = 1%nat /\
  ~ stocks_nonneg (products (completeSale env0 saleOver stClerk)).
Proof.
  split.
  - apply Exists_cons_tl, Exists_cons_hd. exists prodR.
    split; [right; left; reflexivity|]. split; [reflexivity|]. cbn. lia.
  - split; [reflexivity|]. split; [reflexivity|].
    intros F. unfold stocks_nonneg in F.
    apply Forall_inv_tail, Forall_inv in F. cbn in F. lia.
Qed.

Lemma completeSale_unchecked_witness :
  exists p', nth_error (products (completeSale env0 (saleOf saleId1 [itemP 3]) stAdmin)) 0
             = Some p' /\ Product.stock p' = 7.
Proof.
  destruct (completeSale_unchecked env0 (saleOf saleId1 [itemP 3]) stAdmin)
    as (_ & _ & _ & W & _).
  destruct (W 0%nat prodP eq_refl) as (p' & Hn & Hs & _).
  exists p'. split; [exact Hn|exact Hs].
Defined.

(** ** Returns: the product side *)

Lemma returnOne_id env saleId ret p :
  Product.id (returnOne env saleId ret p) = Product.id p.
Proof. unfold returnOne. destruct (String.eqb _ _); reflexivity. Qed.

Lemma returnOne_lastRestocked env saleId ret p :
  Product.lastRestocked (returnOne env saleId ret p) = Product.lastRestocked p.
Proof. unfold returnOne. destruct (String.eqb _ _); reflexivity. Qed.

Lemma linesFor_id returns p q :
  Product.id p = Product.id q -> linesFor returns p = linesFor returns q.
Proof. intros E. unfold linesFor. rewrite E. reflexivity. Qed.

Lemma applyReturns_lastRestocked env saleId returns p :
  Product.lastRestocked (applyReturns env saleId returns p) = Product.lastRestocked p.
Proof.
  revert p. induction returns as [|r rs IH]; intros p; [reflexivity|].
  unfold applyReturns in *. simpl. rewrite IH. apply returnOne_lastRestocked.
Qed.

(** What the lines of a request do to one product: the stock grows by the
    quantities of the lines naming it, and each such line leaves a RESTOCK
    movement, the last line's movement in front. *)
Lemma applyReturns_spec env saleId returns : forall p,
  Product.stock (applyReturns env saleId returns p)
  = Product.stock p + sumZ (map ReturnLine.quantity (linesFor returns p)) /\
  exists logs,
    Product.stockHistory (applyReturns env saleId returns p)
    = logs ++ Product.stockHistory p /\
    Forall (fun l => StockLog.type l = RESTOCK) logs /\
    map StockLog.amount logs = rev (map ReturnLine.quantity (linesFor returns p)).
Proof.
  induction returns as [|r rs IH]; intros p.
  - cbn. split; [lia|]. exists []. repeat split; constructor.
  - change (applyReturns env saleId (r :: rs) p)
      with (applyReturns env saleId rs (returnOne env saleId r p)).
    destruct (IH (returnOne env saleId r p)) as (Hs & logs & Hh & Ht & Ha).
    rewrite (linesFor_id rs _ p) in Hs, Ha by apply returnOne_id.
    rewrite Hs, Hh.
    assert (L : linesFor (r :: rs) p
                = if String.eqb (Product.id p) (ReturnLine.productId r)
                  then r :: linesFor rs p else linesFor rs p) by reflexivity.
    rewrite L. clear L. unfold returnOne.
    destruct (String.eqb (Product.id p) (ReturnLine.productId r)).
    + cbn. split; [unfold sumZ; lia|].
      exists (logs ++ [StockLog.mk ("LOG-RET-" ++ msNow env ++ "-" ++ Product.id p)
                         (isoNow env) RESTOCK (ReturnLine.quantity r)
                         (Product.stock p + ReturnLine.quantity r)
                         (Some ("Return from Sale #" ++ slice_last 6 saleId)%string)]).
      split; [rewrite <- app_assoc; reflexivity|]. split.
      * apply Forall_app. split; [exact Ht|]. constructor; [reflexivity|constructor].
      * rewrite map_app, Ha. reflexivity.
    + split; [lia|]. exists logs. repeat split; assumption.
Qed.

(** ** Returns: the sale side *)

Lemma with_items_same s : Sale.with_items s (Sale.items s) = s.
Proof. destruct s; reflexivity. Qed.

Lemma find_none_all {T} (f : T -> bool) xs :
  (forall x, In x xs -> f x = false) -> find f xs = None.
Proof.
  induction xs as [|x r IH]; intros H; [reflexivity|].
  simpl. rewrite (H x) by (left; reflexivity).
  apply IH. intros y Hy. apply H. right. exact Hy.
Qed.

Lemma map_fix {T} (f : T -> T) xs : (forall x, In x xs -> f x = x) -> map f xs = xs.
Proof.
  intros H. rewrite <- (map_id xs) at 2. apply map_ext_in. exact H.
Qed.

Lemma returnSale_other saleId returns s :
  Sale.id s <> saleId -> returnSale saleId returns s = s.
Proof.
  intros N. unfold returnSale.
  destruct (String.eqb_spec (Sale.id s) saleId); [contradiction|reflexivity].
Qed.

Lemma returnSale_unmatched saleId returns s :
  (forall item r, In item (Sale.items s) -> In r returns ->
     ReturnLine.productId r <> SaleItem.productId item) ->
  returnSale saleId returns s = s.
Proof.
  intros H. unfold returnSale. destruct (String.eqb _ _); [|reflexivity].
  transitivity (Sale.with_items s (Sale.items s)); [|apply with_items_same].
  f_equal. apply map_fix.
  intros item Hi. unfold returnItem. rewrite find_none_all; [reflexivity|].
  intros r Hr. apply String.eqb_neq. apply H; assumption.
Qed.

Lemma find_filter_implied {T} (g f : T -> bool) xs :
  (forall x, g x = true -> f x = true) -> find g (filter f xs) = find g xs.
Proof.
  intros H. induction xs as [|x r IH]; [reflexivity|].
  simpl. destruct (f x) eqn:Ef; simpl.
  - rewrite IH. reflexivity.
  - destruct (g x) eqn:Eg; [|exact IH].
    apply H in Eg. congruence.
Qed.

(** A line naming no item of the sale plays no part in the sale update. *)
Lemma returnSale_ignores_unmatched saleId returns s :
  returnSale saleId returns s
  = returnSale saleId
      (filter (fun r => existsb (fun item => String.eqb (ReturnLine.productId r)
                                               (SaleItem.productId item))
                          (Sale.items s)) returns) s.
Proof.
  unfold returnSale. destruct (String.eqb _ _); [|reflexivity].
  f_equal. apply map_ext_in. intros item Hi. unfold returnItem.
  rewrite find_filter_implied; [reflexivity|].
  intros r Hr. apply existsb_exists. exists item. split; assumption.
Qed.

(** ** C9: the two stores of a return are updated independently *)

(** C9.  For an authorised caller: when no stored sale has the given id, or
    when no line of the request names an item of the sale with that id, the
    sale store is left as it is; a line naming no item of the sale never
    takes part in the sale update.  Whatever the sale store holds, every
    product named by some line has its stock raised by the requested
    quantities and gets one RESTOCK movement per line naming it. *)
Theorem processReturn_stores_independent (env : Env) (saleId : string)
    (returns : list ReturnLine.t) (st : AppState) (H : isAdmin st = true) :
  let st' := processReturn env saleId returns st in
  ((forall s, In s (sales st) -> Sale.id s <> saleId) -> sales st' = sales st) /\
  ((forall s item r, In s (sales st) -> Sale.id s = saleId ->
      In item (Sale.items s) -> In r returns ->
      ReturnLine.productId r <> SaleItem.productId item) -> sales st' = sales st) /\
  sales st'
  = map (fun s => returnSale saleId
                    (filter (fun r => existsb (fun item =>
                                         String.eqb (ReturnLine.productId r)
                                                    (SaleItem.productId item))
                                        (Sale.items s)) returns) s) (sales st) /\
  (forall k p, nth_error (products st) k = Some p ->
     exists p', nth_error (products st') k = Some p' /\
       Product.stock p'
       = Product.stock p + sumZ (map ReturnLine.quantity (linesFor returns p)) /\
       exists logs, Product.stockHistory p' = logs ++ Product.stockHistory p /\
         List.length logs = List.length (linesFor returns p) /\
         Forall (fun l => StockLog.type l = RESTOCK) logs /\
         map StockLog.amount logs = rev (map ReturnLine.quantity (linesFor returns p))).
Proof.
  cbv zeta. rewrite processReturn_admin by exact H.
  cbn [sales products]. repeat split.
  - intros Hno. apply map_fix. intros s Hs. apply returnSale_other, Hno, Hs.
  - intros Hno. apply map_fix. intros s Hs.
    destruct (String.eqb_spec (Sale.id s) saleId) as [E|N].
    + apply returnSale_unmatched. intros item r Hi Hr. exact (Hno s item r Hs E Hi Hr).
    + apply returnSale_other, N.
  - apply map_ext. intros s. apply returnSale_ignores_unmatched.
  - intros k p Hk. exists (applyReturns env saleId returns p). split.
    + rewrite nth_error_map, Hk. reflexivity.
    + destruct (applyReturns_spec env saleId returns p) as (Hs & logs & Hh & Ht & Ha).
      split; [exact Hs|]. exists logs. repeat split; try assumption.
      rewrite <- (length_map StockLog.amount), Ha, length_rev, length_map. reflexivity.
Qed.

Lemma processReturn_stores_independent_witness :
  isAdmin stSold = true /\
  sales (processReturn env1 "SALE-unknown" [ReturnLine.mk "P" 2] stSold) = sales stSold /\
  exists p', nth_error (products (processReturn env1 "SALE-unknown"
                                    [ReturnLine.mk "P" 2] stSold)) 0 = Some p' /\
    Product.stock p' = 9.
Proof.
  split; [reflexivity|].
  destruct (processReturn_stores_independent env1 "SALE-unknown" [ReturnLine.mk "P" 2]
              stSold eq_refl) as (Wa & _ & _ & Wp).
  split.
  - apply Wa. intros s [<-|[]]. cbn. discriminate.
  - destruct (Wp 0%nat (sellOne env0 (saleOf saleId1 [itemP 3]) prodP) eq_refl)
      as (p' & Hn & Hs & _).
    exists p'. split; [exact Hn|exact Hs].
Defined.

(** ** C3: returns are not validated *)

Lemma returnItem_bound returns item :
  return_bound item ->
  (forall r, find (fun r => String.eqb (ReturnLine.productId r) (SaleItem.productId item))
               returns = Some r ->
             0 <= ReturnLine.quantity r <= returnable item) ->
  return_bound (returnItem returns item).
Proof.
  intros Hb Hq. unfold returnItem.
  destruct (find _ returns) as [r|]; [|exact Hb].
  specialize (Hq r eq_refl). unfold return_bound, returnable in *. cbn. lia.
Qed.

(** C3, as the code has it.  [processReturn] tests the role and nothing
    else; it has no failure path.  Called by an ADMIN with any quantities,
    also ones beyond what is returnable, it
    - replaces every sale with the given id by the sale in which each item
      named by some line has the quantity of the first such line added to
      its returned quantity, and
    - raises the stock of every product by the quantities of all the lines
      naming it, putting one RESTOCK movement per such line in front of its
      ledger.
    The bound 0 <= returnedQuantity <= quantity carries over from the sale
    store before the call to the one after it when every line that is
    applied to an item asks for a quantity between 0 and the returnable
    quantity of that item. *)
Theorem processReturn_unchecked (env : Env) (saleId : string)
    (returns : list ReturnLine.t) (st : AppState) (H : isAdmin st = true) :
  let st' := processReturn env saleId returns st in
  sales st' = map (returnSale saleId returns) (sales st) /\
  (forall s, Sale.id s = saleId ->
     Sale.items (returnSale saleId returns s)
     = map (fun item =>
              match find (fun r => String.eqb (ReturnLine.productId r)
                                              (SaleItem.productId item)) returns with
              | Some r => SaleItem.with_returned item
                            (or0 (SaleItem.returnedQuantity item) + ReturnLine.quantity r)
              | None => item
              end) (Sale.items s)) /\
  (forall k p, nth_error (products st) k = Some p ->
     exists p', nth_error (products st') k = Some p' /\
       Product.stock p'
       = Product.stock p + sumZ (map ReturnLine.quantity (linesFor returns p)) /\
       exists logs, Product.stockHistory p' = logs ++ Product.stockHistory p /\
         Forall (fun l => StockLog.type l = RESTOCK) logs /\
         map StockLog.amount logs = rev (map ReturnLine.quantity (linesFor returns p))) /\
  ((forall s item r, In s (sales st) -> Sale.id s = saleId -> In item (Sale.items s) ->
      find (fun r => String.eqb (ReturnLine.productId r) (SaleItem.productId item))
        returns = Some r ->
      0 <= ReturnLine.quantity r <= returnable item) ->
   Forall (fun s => Forall return_bound (Sale.items s)) (sales st) ->
   Forall (fun s => Forall return_bound (Sale.items s)) (sales st')).
Proof.
  cbv zeta. rewrite processReturn_admin by exact H. cbn [sales products].
  split; [reflexivity|]. split; [|split].
  - intros s <-. unfold returnSale. rewrite String.eqb_refl. reflexivity.
  - intros k p Hk. exists (applyReturns env saleId returns p). split.
    + rewrite nth_error_map, Hk. reflexivity.
    + destruct (applyReturns_spec env saleId returns p) as (Hs & logs & Hh & Ht & Ha).
      split; [exact Hs|]. exists logs.
      split; [exact Hh|]. split; [exact Ht|exact Ha].
  - intros Hq Hall. rewrite Forall_map. rewrite Forall_forall in *.
    intros s Hs. specialize (Hall s Hs). unfold returnSale.
    destruct (String.eqb_spec (Sale.id s) saleId) as [E|N]; [|exact Hall].
    cbn. rewrite Forall_map. rewrite Forall_forall in *.
    intros item Hi. apply returnItem_bound; [apply Hall, Hi|].
    intros r Hr. exact (Hq s item r Hs E Hi Hr).
Qed.

Lemma processReturn_unchecked_witness :
  isAdmin stSold = true /\
  Forall (fun s => Forall return_bound (Sale.items s))
    (sales (processReturn env1 saleId1 [ReturnLine.mk "P" 1] stSold)) /\
  exists p', nth_error (products (processReturn env1 saleId1 [ReturnLine.mk "P" 1] stSold)) 0
             = Some p' /\ Product.stock p' = 7 + 1.
Proof.
  split; [reflexivity|].
  destruct (processReturn_unchecked env1 saleId1 [ReturnLine.mk "P" 1] stSold eq_refl)
    as (_ & _ & Wp & W).
  split.
  - apply W.
    + intros s item r [<-|[]] _ [<-|[]] Hf.
      cbn in Hf. injection Hf as <-. cbn. lia.
    + repeat constructor; cbn; lia.
  - destruct (Wp 0%nat (sellOne env0 (saleOf saleId1 [itemP 3]) prodP) eq_refl)
      as (p' & Hn & Hs & _).
    exists p'. split; [exact Hn|exact Hs].
Defined.

(** The claim of C3 fails when a line asks for more than is returnable: of an
    item sold 3 times, 5 are returned; the call goes through, the item's
    returned quantity becomes 5 and the stock grows from 7 to 12. *)
Lemma processReturn_excess_counterexample :
  let st' := processReturn env1 saleId1 [ReturnLine.mk "P" 5] stSold in
  isAdmin stSold = true /\
  map (fun s => map (fun i => (returnable i, SaleItem.quantity i)) (Sale.items s))
      (sales stSold) = [[(3, 3)]] /\
  map (fun s => map SaleItem.returnedQuantity (Sale.items s)) (sales st') = [[Some 5]] /\
  map Product.stock (products stSold) = [7; 4] /\
  map Product.stock (products st') = [12; 4] /\
  ~ Forall (fun s => Forall return_bound (Sale.items s)) (sales st').
Proof.
  cbv zeta. repeat (split; [reflexivity|]).
  intros F. apply Forall_inv, Forall_inv in F.
  unfold return_bound in F. cbn in F. lia.
Qed.

(** ** C8: the last-restocked date *)

(** C8, the divergence.  No call of [processReturn] changes the
    last-restocked date of any product.  At the store in which P was sold
    three times, returning one P puts a RESTOCK movement stamped with the
    time of the call in front of P's ledger and leaves P's last-restocked
    date at its old value, while [restockProduct] at the same store sets it
    to the time of the call. *)
Theorem processReturn_keeps_lastRestocked :
  (forall env saleId returns st,
     map Product.lastRestocked (products (processReturn env saleId returns st))
     = map Product.lastRestocked (products st)) /\
  (let st' := processReturn env1 saleId1 [ReturnLine.mk "P" 1] stSold in
   option_map (fun p => (map (fun l => (StockLog.type l, StockLog.timestamp l))
                             (firstn 1 (Product.stockHistory p)),
                         Product.lastRestocked p))
     (nth_error (products st') 0)
   = Some ([(RESTOCK, isoNow env1)], "2024-02-01T08:00:00.000Z"%string) /\
   isoNow env1 <> "2024-02-01T08:00:00.000Z"%string /\
   option_map Product.lastRestocked
     (nth_error (products (restockProduct env1 "P" 1 stSold)) 0)
   = Some (isoNow env1)).
Proof.
  split.
  - intros env saleId returns st. destruct (isAdmin st) eqn:E.
    + rewrite processReturn_admin by exact E. cbn [products].
      rewrite map_map. apply map_ext. intros p. apply applyReturns_lastRestocked.
    + unfold processReturn. rewrite E. reflexivity.
  - cbv zeta. split; [reflexivity|]. split; [discriminate|reflexivity].
Qed.

(** ** C2: the ledger invariant *)












Lemma Forall_map_pres {T} (P : T -> Prop) (f : T -> T) xs :
  (forall x, In x xs -> P x -> P (f x)) -> Forall P xs -> Forall P (map f xs).
Proof.
  intros H F. rewrite Forall_map. rewrite Forall_forall in *.
  intros x Hx. apply H; [exact Hx|apply F, Hx].
Qed.








(** ** C6: subtotal, tax and total of a sale *)

Lemma with_quantity_ok item q :
  line_ok (SaleItem.with_quantity item q (js_mul (inject_Z q) (SaleItem.price item))).
Proof. left. reflexivity. Qed.

Lemma addToCart_ok product c : Forall line_ok c -> Forall line_ok (addToCart product c).
Proof.
  intros F. unfold addToCart. destruct (find _ c) as [existing|].
  - destruct (_ >=? _); [exact F|].
    apply Forall_map_pres; [|exact F]. intros item _ Hi.
    destruct (String.eqb _ _); [apply with_quantity_ok|exact Hi].
  - apply Forall_app. split; [exact F|]. constructor; [|constructor].
    right. split; reflexivity.
Qed.

Lemma updateQuantity_ok prods productId delta c :
  Forall line_ok c -> Forall line_ok (updateQuantity prods productId delta c).
Proof.
  unfold updateQuantity. induction 1 as [|item r Hi _ IH]; [constructor|].
  cbn [map]. destruct (String.eqb _ _).
  - destruct (_ >? _); [constructor; assumption|].
    destruct (_ =? 0); [exact IH|].
    constructor; [apply with_quantity_ok|exact IH].
  - constructor; assumption.
Qed.

Lemma update_first_ok (f : SaleItem.t -> bool) g c :
  (forall x, line_ok (g x)) -> Forall line_ok c -> Forall line_ok (update_first f g c).
Proof.
  intros Hg. induction 1 as [|x r Hx Hr IH]; [constructor|].
  cbn. destruct (f x); constructor; auto.
Qed.

Lemma addScannedStep_ok c item : Forall line_ok c -> Forall line_ok (addScannedStep c item).
Proof.
  intros F. unfold addScannedStep.
  destruct (ScannedOrderItem.matchedProduct item) as [prod|]; [|exact F].
  destruct (find _ c).
  - apply update_first_ok; [|exact F]. intros x. apply with_quantity_ok.
  - apply Forall_app. split; [exact F|]. constructor; [|constructor].
    left. reflexivity.
Qed.

Lemma addScannedToCart_ok scanned c :
  Forall line_ok c -> Forall line_ok (addScannedToCart scanned c).
Proof.
  unfold addScannedToCart. generalize (filter
    (fun i => ScannedOrderItem.selected i &&
              match ScannedOrderItem.matchedProduct i with
              | Some _ => true | None => false end) scanned).
  intros toAdd. revert c. induction toAdd as [|i r IH]; intros c F; [exact F|].
  cbn. apply IH, addScannedStep_ok, F.
Qed.

(** Every line of a cart the handlers can build has total = quantity * price. *)
Lemma CartReachable_ok c : CartReachable c -> Forall line_ok c.
Proof.
  induction 1.
  - constructor.
  - apply addToCart_ok; assumption.
  - apply updateQuantity_ok; assumption.
  - apply addScannedToCart_ok; assumption.
Qed.

Lemma cartSubtotal_totalsSum c : cartSubtotal c = totalsSum c.
Proof.
  unfold cartSubtotal, totalsSum. generalize 0%Q.
  induction c as [|x r IH]; intros a; [reflexivity|]. cbn. apply IH.
Qed.

(** Two products and a product by the tax rate, as the language computes
    them: 3 * 1.2 is 3.5999999999999996 and 3 * 0.05 is 0.15000000000000002,
    given here by their exact values. *)
Lemma js_mul_examples :
  js_mul 3 (12 # 10) = 2026619832316723 # 562949953421312 /\
  js_mul 3 (5 # 100) = 1351079888211149 # 9007199254740992 /\
  js_mul 30 (5 # 100) = 3 # 2 /\
  js_add 30 (3 # 2) = 63 # 2.
Proof. repeat split; vm_compute; reflexivity. Qed.

(** C6, as the code has it.  For a cart built by the cart handlers and not
    empty, [handleFinish] hands [completeSale] the sale that is recorded, in
    which every line total is the binary64 product of quantity and unit
    price (the unit price itself on a fresh line of quantity 1), the subtotal
    is the line totals added from the left in binary64, the tax is the
    binary64 product of the subtotal and 0.05, and the total is the binary64
    sum of subtotal and tax.  The cart holding product P (unit price 10)
    three times gives subtotal 30, tax 1.5 and total 31.5, exactly. *)
Theorem sale_totals_binary64 :
  (forall env pos st, CartReachable (cart pos) -> cart pos <> [] ->
     let sale := buildSale env pos in
     snd (handleFinish env pos st) = completeSale env sale st /\
     sales (snd (handleFinish env pos st))
     = Sale.with_processedBy sale (option_map User.fullName (currentUser st)) :: sales st /\
     Sale.items sale = cart pos /\
     Forall line_ok (Sale.items sale) /\
     Sale.subtotal sale = totalsSum (Sale.items sale) /\
     Sale.tax sale = js_mul (Sale.subtotal sale) (5 # 100) /\
     Sale.total sale = js_add (Sale.subtotal sale) (Sale.tax sale)) /\
  (forall env,
     let sale := buildSale env pos3 in
     map (fun i => (SaleItem.productId i, SaleItem.quantity i, SaleItem.price i,
                    SaleItem.total i))
         (Sale.items sale) = [("P"%string, 3, 10%Q, 30%Q)] /\
     Sale.subtotal sale = 30%Q /\ Sale.tax sale = 3 # 2 /\
     Sale.total sale = 63 # 2).
Proof.
  split.
  - intros env pos st Hr Hne. cbv zeta.
    assert (E : handleFinish env pos st
                = (mkPos [] "" "" "" (paymentMethod pos) (Some (buildSale env pos)),
                   completeSale env (buildSale env pos) st)).
    { unfold handleFinish. destruct (cart pos); [contradiction|reflexivity]. }
    rewrite E. cbn [snd]. split; [reflexivity|]. split; [reflexivity|].
    split; [reflexivity|]. cbn [buildSale Sale.items Sale.subtotal Sale.tax Sale.total].
    split; [apply CartReachable_ok, Hr|].
    split; [apply cartSubtotal_totalsSum|]. split; reflexivity.
  - intros env. cbv zeta. repeat split; vm_compute; reflexivity.
Qed.

Lemma sale_totals_binary64_witness :
  CartReachable (cart posR) /\ cart posR <> [] /\
  Sale.subtotal (buildSale env0 posR) = 3%Q /\
  Sale.tax (buildSale env0 posR) = 1351079888211149 # 9007199254740992 /\
  Sale.tax (buildSale env0 posR) = js_mul (Sale.subtotal (buildSale env0 posR)) (5 # 100).
Proof.
  assert (R : CartReachable (cart posR)) by (apply cart_add, cart_empty).
  assert (N : cart posR <> []) by discriminate.
  split; [exact R|]. split; [exact N|].
  split; [vm_compute; reflexivity|]. split; [vm_compute; reflexivity|].
  destruct (proj1 sale_totals_binary64 env0 posR stAdmin R N)
    as (_ & _ & _ & _ & _ & T & _).
  exact T.
Defined.

(** The claim of C6 fails on a subtotal of 3: one Ribbon at 3 gives the tax
    0.15000000000000002, which is not 5% of 3. *)
Lemma sale_tax_not_exact_counterexample :
  CartReachable (cart posR) /\
  Sale.subtotal (buildSale env0 posR) = 3%Q /\
  ~ (Sale.tax (buildSale env0 posR) == (5 # 100) * Sale.subtotal (buildSale env0 posR))%Q.
Proof.
  split; [apply cart_add, cart_empty|]. split; [vm_compute; reflexivity|].
  intros E. vm_compute in E. discriminate E.
Qed.

(** ** The stable sort *)

Section SortFacts.
Context {A : Type} (cmp : A -> A -> Z).

Lemma js_insert_perm a l : Permutation (js_insert cmp a l) (a :: l).
Proof.
  induction l as [|y l' IH]; cbn; [reflexivity|].
  destruct (cmp a y <=? 0); [reflexivity|].
  rewrite IH. apply perm_swap.
Qed.

Lemma js_sort_cons (c : A -> A -> Z) a l :
  js_sort c (a :: l) = js_insert c a (js_sort c l).
Proof. reflexivity. Qed.

Lemma js_sort_perm l : Permutation (js_sort cmp l) l.
Proof.
  induction l as [|a l' IH]; [reflexivity|].
  rewrite js_sort_cons, js_insert_perm. apply perm_skip, IH.
Qed.


(** A comparator that never separates two elements leaves the order alone. *)
Lemma js_sort_all_ties l : (forall a b, cmp a b = 0) -> js_sort cmp l = l.
Proof.
  intros H. induction l as [|a l' IH]; [reflexivity|].
  rewrite js_sort_cons, IH. destruct l' as [|y r]; cbn; [reflexivity|].
  rewrite H. reflexivity.
Qed.

(** Stability: the elements tied with [x] keep their order, provided ties
    agree with the comparator. *)
Section Stability.
Hypothesis tie_cong : forall x a y, cmp x a = 0 -> cmp x y = cmp a y.

Lemma js_insert_ties x a l :
  filter (fun y => cmp x y =? 0) (js_insert cmp a l)
  = filter (fun y => cmp x y =? 0) (a :: l).
Proof.
  induction l as [|y l' IH]; [reflexivity|].
  cbn [js_insert]. destruct (Z.leb_spec (cmp a y) 0) as [L|G]; [reflexivity|].
  cbn [filter] in *. rewrite IH.
  destruct (Z.eqb_spec (cmp x a) 0) as [Ea|Na]; [|reflexivity].
  destruct (Z.eqb_spec (cmp x y) 0) as [Ey|Ny]; [|reflexivity].
  rewrite (tie_cong x a y Ea) in Ey. lia.
Qed.

Lemma js_sort_stable x l :
  filter (fun y => cmp x y =? 0) (js_sort cmp l) = filter (fun y => cmp x y =? 0) l.
Proof.
  induction l as [|a l' IH]; [reflexivity|].
  rewrite js_sort_cons, js_insert_ties. cbn [filter]. rewrite IH. reflexivity.
Qed.
End Stability.

(** Sortedness: neighbours in the result are in comparator order. *)
Section Sortedness.
Hypothesis anti : forall a b, cmp b a = - cmp a b.

Lemma js_insert_sorted a l :
  Sorted (fun u v => cmp u v <= 0) l -> Sorted (fun u v => cmp u v <= 0) (js_insert cmp a l).
Proof.
  induction 1 as [|y l' Hs IH Hh]; cbn.
  - repeat constructor.
  - destruct (Z.leb_spec (cmp a y) 0) as [L|G].
    + repeat constructor; assumption.
    + constructor; [exact IH|].
      destruct l' as [|z r]; cbn.
      * constructor. rewrite anti. lia.
      * destruct (cmp a z <=? 0); constructor.
        -- rewrite anti. lia.
        -- apply HdRel_inv in Hh. exact Hh.
Qed.

Lemma js_sort_sorted l : Sorted (fun u v => cmp u v <= 0) (js_sort cmp l).
Proof.
  induction l as [|a l' IH]; [constructor|].
  rewrite js_sort_cons. apply js_insert_sorted, IH.
Qed.
End Sortedness.

(** Reversal: with no ties, sorting by the opposite comparator gives the
    reverse of the sorted list. *)
Section Reversal.
Context (cmp' : A -> A -> Z).
Hypothesis opp : forall a b, cmp' a b = - cmp a b.
Hypothesis anti : forall a b, cmp b a = - cmp a b.
Hypothesis trans : forall a b c, cmp a b < 0 -> cmp b c < 0 -> cmp a c < 0.






End Reversal.
End SortFacts.

(** ** The comparator of the product query *)



Lemma string_compare_refl s : String.compare s s = Eq.
Proof.
  induction s as [|a s IH]; [reflexivity|].
  cbn. unfold Ascii.compare. rewrite N.compare_refl. exact IH.
Qed.
















Lemma ProductKey_eqb_refl k : ProductKey_eqb k k = true.
Proof. destruct k; reflexivity. Qed.


Lemma filteredProducts_sorted prods searchTerm selectedCategory cfgs :
  filteredProducts prods searchTerm selectedCategory cfgs
  = js_sort (compareProducts cfgs) (filter (matchesQuery searchTerm selectedCategory) prods).
Proof.
  unfold filteredProducts. destruct cfgs; [|reflexivity].
  symmetry. apply js_sort_all_ties. reflexivity.
Qed.

(** ** C7: the product query's sort *)



(** * Further properties of the handlers *)

(** ** The ledger only grows *)

Lemma nth_map_extends (f : Product.t -> Product.t) l k p :
  (forall q, exists logs, Product.stockHistory (f q) = logs ++ Product.stockHistory q) ->
  nth_error l k = Some p ->
  exists p' logs, nth_error (map f l) k = Some p' /\
    Product.stockHistory p' = logs ++ Product.stockHistory p.
Proof.
  intros Hf Hk. destruct (Hf p) as (logs & E).
  exists (f p), logs. split; [|exact E].
  rewrite nth_error_map, Hk. reflexivity.
Qed.

Lemma nth_same_extends (l : list Product.t) k p :
  nth_error l k = Some p ->
  exists p' logs, nth_error l k = Some p' /\
    Product.stockHistory p' = logs ++ Product.stockHistory p.
Proof. intros Hk. exists p, []. split; [exact Hk|reflexivity]. Qed.

Lemma updateOne_extends env updated q :
  exists logs, Product.stockHistory (updateOne env updated q) = logs ++ Product.stockHistory q.
Proof.
  unfold updateOne. destruct (String.eqb _ _); [|exists []; reflexivity].
  destruct (negb _); [eexists [_]|exists []]; reflexivity.
Qed.

(** X1.  No movement is ever edited or removed by restock, adjustStock,
    completeSale, processReturn or updateProduct: the product at each place
    of the catalogue keeps its ledger as the tail of its new ledger, whoever
    calls and whatever the arguments; [updateProduct] in particular ignores
    the history carried by the submitted product. *)
Theorem ledger_append_only (env : Env) (st : AppState) (k : nat) (p : Product.t)
    (Hk : nth_error (products st) k = Some p) :
  (forall id amount, exists p' logs,
     nth_error (products (restockProduct env id amount st)) k = Some p' /\
     Product.stockHistory p' = logs ++ Product.stockHistory p) /\
  (forall id amount reason, exists p' logs,
     nth_error (products (adjustStock env id amount reason st)) k = Some p' /\
     Product.stockHistory p' = logs ++ Product.stockHistory p) /\
  (forall sale, exists p' logs,
     nth_error (products (completeSale env sale st)) k = Some p' /\
     Product.stockHistory p' = logs ++ Product.stockHistory p) /\
  (forall saleId returns, exists p' logs,
     nth_error (products (processReturn env saleId returns st)) k = Some p' /\
     Product.stockHistory p' = logs ++ Product.stockHistory p) /\
  (forall updated, exists p' logs,
     nth_error (products (updateProduct env updated st)) k = Some p' /\
     Product.stockHistory p' = logs ++ Product.stockHistory p).
Proof.
  repeat split.
  - intros id amount. unfold restockProduct.
    destruct (isAdmin st); cbn [negb]; [|apply nth_same_extends, Hk].
    apply nth_map_extends; [|exact Hk]. intros q. unfold restockOne.
    destruct (String.eqb _ _); [eexists [_]|exists []]; reflexivity.
  - intros id amount reason. unfold adjustStock.
    destruct (isAdmin st); cbn [negb]; [|apply nth_same_extends, Hk].
    apply nth_map_extends; [|exact Hk]. intros q. unfold adjustOne.
    destruct (String.eqb _ _); [eexists [_]|exists []]; reflexivity.
  - intros sale. rewrite products_completeSale.
    apply nth_map_extends; [|exact Hk]. intros q. unfold sellOne.
    destruct (find _ _); [eexists [_]|exists []]; reflexivity.
  - intros saleId returns. destruct (isAdmin st) eqn:E.
    + rewrite processReturn_admin by exact E. cbn [products].
      apply nth_map_extends; [|exact Hk]. intros q.
      destruct (applyReturns_spec env saleId returns q) as (_ & logs & Hh & _).
      exists logs. exact Hh.
    + unfold processReturn. rewrite E. apply nth_same_extends, Hk.
  - intros updated. unfold updateProduct.
    destruct (isAdmin st); cbn [negb]; [|apply nth_same_extends, Hk].
    assert (G : exists p' logs,
               nth_error (map (updateOne env updated) (products st)) k = Some p' /\
               Product.stockHistory p' = logs ++ Product.stockHistory p).
    { apply nth_map_extends; [|exact Hk]. apply updateOne_extends. }
    destruct (includes (categories st) (Product.category updated)); cbn [negb];
      [|rewrite products_addCategory]; exact G.
Qed.

Lemma ledger_append_only_witness :
  exists p' logs,
    nth_error (products (adjustStock env1 "P" (-25) "damaged" stAdmin)) 0 = Some p' /\
    Product.stockHistory p' = logs ++ Product.stockHistory prodP.
Proof.
  destruct (ledger_append_only env1 stAdmin 0 prodP eq_refl) as (_ & W & _).
  exact (W "P"%string (-25) "damaged"%string).
Defined.

(** ** Handlers given an id no product has *)

Lemma setProducts_same f st : f (products st) = products st -> setProducts f st = st.
Proof. intros E. unfold setProducts. rewrite E. destruct st; reflexivity. Qed.

Lemma applyReturns_miss env saleId returns p :
  (forall r, In r returns -> ReturnLine.productId r <> Product.id p) ->
  applyReturns env saleId returns p = p.
Proof.
  revert p. induction returns as [|r rs IH]; intros p H; [reflexivity|].
  change (applyReturns env saleId (r :: rs) p)
    with (applyReturns env saleId rs (returnOne env saleId r p)).
  assert (E : returnOne env saleId r p = p).
  { unfold returnOne.
    destruct (String.eqb_spec (Product.id p) (ReturnLine.productId r)) as [E|N];
      [|reflexivity].
    exfalso. apply (H r (or_introl eq_refl)). symmetry. exact E. }
  rewrite E. apply IH. intros r' Hr'. apply H. right. exact Hr'.
Qed.

(** X2.  A product id that no product of the catalogue has is not reported:
    restock, adjustStock and deleteProduct return the store unchanged,
    updateProduct and processReturn leave the catalogue unchanged, and
    completeSale with lines naming only such ids leaves the catalogue
    unchanged while it still records the sale. *)
Theorem unknown_id_silently_ignored (env : Env) (id : string) (st : AppState)
    (Hid : forall p, In p (products st) -> Product.id p <> id) :
  (forall amount, restockProduct env id amount st = st) /\
  (forall amount reason, adjustStock env id amount reason st = st) /\
  deleteProduct id st = st /\
  (forall updated, Product.id updated = id ->
     products (updateProduct env updated st) = products st) /\
  (forall saleId quantity,
     products (processReturn env saleId [ReturnLine.mk id quantity] st) = products st) /\
  (forall sale,
     Forall (fun item => SaleItem.productId item = id) (Sale.items sale) ->
     products (completeSale env sale st) = products st /\
     List.length (sales (completeSale env sale st)) = S (List.length (sales st))).
Proof.
  repeat split.
  - intros amount. unfold restockProduct. destruct (isAdmin st); [|reflexivity].
    apply setProducts_same, map_fix. intros p Hp. apply restockOne_miss, Hid, Hp.
  - intros amount reason. unfold adjustStock. destruct (isAdmin st); [|reflexivity].
    apply setProducts_same, map_fix. intros p Hp. apply adjustOne_miss, Hid, Hp.
  - unfold deleteProduct. destruct (isAdmin st); [|reflexivity].
    apply setProducts_same. cbn [negb].
    induction (products st) as [|p l IH]; [reflexivity|].
    cbn. destruct (String.eqb_spec (Product.id p) id) as [E|N].
    + exfalso. exact (Hid p (or_introl eq_refl) E).
    + cbn. f_equal. apply IH. intros q Hq. apply Hid. right. exact Hq.
  - intros updated <-. unfold updateProduct. destruct (isAdmin st); [|reflexivity].
    cbn [negb].
    assert (G : map (updateOne env updated) (products st) = products st).
    { apply map_fix. intros p Hp. unfold updateOne.
      destruct (String.eqb_spec (Product.id p) (Product.id updated)) as [E|N];
        [|reflexivity].
      exfalso. exact (Hid p Hp E). }
    destruct (includes (categories st) (Product.category updated)); cbn [negb];
      [|rewrite products_addCategory]; exact G.
  - intros saleId quantity. destruct (isAdmin st) eqn:E.
    + rewrite processReturn_admin by exact E. cbn [products].
      apply map_fix. intros p Hp. apply applyReturns_miss.
      intros r [<-|[]]. cbn. intros E'. exact (Hid p Hp (eq_sym E')).
    + unfold processReturn. rewrite E. reflexivity.
  - rewrite products_completeSale. apply map_fix. intros p Hp.
    unfold sellOne. rewrite find_none_all; [reflexivity|].
    intros item Hi. rewrite Forall_forall in H.
    apply String.eqb_neq. rewrite (H item Hi). intros E. exact (Hid p Hp (eq_sym E)).
Qed.

Lemma unknown_id_silently_ignored_witness :
  (forall p, In p (products stAdmin) -> Product.id p <> "ZZ"%string) /\
  restockProduct env0 "ZZ" 5 stAdmin = stAdmin.
Proof.
  assert (H : forall p, In p (products stAdmin) -> Product.id p <> "ZZ"%string).
  { intros p [<-|[<-|[]]]; discriminate. }
  split; [exact H|].
  exact (proj1 (unknown_id_silently_ignored env0 "ZZ" stAdmin H) 5).
Defined.

(** ** Categories *)

Lemma includes_In xs x : includes xs x = true <-> In x xs.
Proof.
  unfold includes. rewrite existsb_exists. split.
  - intros (y & Hy & E). apply String.eqb_eq in E. subst. exact Hy.
  - intros H. exists x. split; [exact H|apply String.eqb_refl].
Qed.

Lemma includes_false xs x : includes xs x = false <-> ~ In x xs.
Proof.
  rewrite <- includes_In. destruct (includes xs x); split; congruence.
Qed.

Lemma default_cmp_anti a b : default_cmp b a = - default_cmp a b.
Proof.
  unfold default_cmp. rewrite (String.compare_antisym b a).
  destruct (String.compare a b); reflexivity.
Qed.

Lemma js_sort_In {T} (c : T -> T -> Z) l x : In x (js_sort c l) <-> In x l.
Proof.
  split; apply Permutation_in; [|symmetry]; apply js_sort_perm.
Qed.

Lemma js_sort_NoDup {T} (c : T -> T -> Z) l : NoDup l -> NoDup (js_sort c l).
Proof. apply Permutation_NoDup. symmetry. apply js_sort_perm. Qed.

Lemma NoDup_snoc {T} (l : list T) x : NoDup l -> ~ In x l -> NoDup (l ++ [x]).
Proof.
  intros Hl Hx. apply (Permutation_NoDup (l := x :: l)).
  - apply Permutation_cons_append.
  - constructor; assumption.
Qed.

Lemma NoDup_rename (o n : string) l :
  NoDup l -> ~ In n l ->
  NoDup (map (fun c => if String.eqb c o then n else c) l).
Proof.
  induction 1 as [|a l Ha Hl IH]; intros Hn; cbn [map]; constructor.
  - rewrite in_map_iff. intros (x & Hx & Hin).
    destruct (String.eqb_spec x o) as [Ex|Nx];
      destruct (String.eqb_spec a o) as [Ea|Na]; subst.
    + exact (Ha Hin).
    + apply Hn. left. reflexivity.
    + apply Hn. right. exact Hin.
    + exact (Ha Hin).
  - apply IH. intros H. apply Hn. right. exact H.
Qed.

Lemma categories_addCategory_nodup name st :
  NoDup (categories st) -> NoDup (categories (addCategory name st)).
Proof.
  intros H. unfold addCategory. destruct (isAdmin st); cbn [negb]; [|exact H].
  destruct (includes (categories st) name) eqn:E; cbn [negb]; [exact H|].
  cbn -[js_sort]. apply js_sort_NoDup, NoDup_snoc; [exact H|]. apply includes_false, E.
Qed.

(** X3.  The category list never gets a duplicate from a single call of
    addCategory, renameCategory, deleteCategory, addProduct or
    updateProduct. *)
Theorem categories_stay_distinct (st : AppState) (H : NoDup (categories st)) :
  (forall name, NoDup (categories (addCategory name st))) /\
  (forall oldName newName, NoDup (categories (renameCategory oldName newName st))) /\
  (forall name, NoDup (categories (deleteCategory name st))) /\
  (forall env p, NoDup (categories (addProduct env p st))) /\
  (forall env updated, NoDup (categories (updateProduct env updated st))).
Proof.
  split; [|split; [|split; [|split]]].
  - intros name. apply categories_addCategory_nodup, H.
  - intros o n. unfold renameCategory. destruct (isAdmin st); cbn [negb]; [|exact H].
    destruct (includes (categories st) n) eqn:E; [exact H|].
    cbn -[js_sort]. apply js_sort_NoDup, NoDup_rename; [exact H|apply includes_false, E].
  - intros name. unfold deleteCategory. destruct (isAdmin st); cbn [negb]; [|exact H].
    destruct (includes (categories st) "General") eqn:E; cbn -[js_sort].
    + apply NoDup_filter, H.
    + apply js_sort_NoDup. constructor.
      * rewrite !filter_In. intros ((Hin & _) & _).
        apply includes_false in E. exact (E Hin).
      * apply NoDup_filter, NoDup_filter, H.
  - intros env p. unfold addProduct. destruct (isAdmin st); cbn [negb]; [|exact H].
    destruct (includes (categories st) (Product.category p)) eqn:E; cbn [negb];
      [exact H|].
    apply (categories_addCategory_nodup (Product.category p)
             (setProducts _ st)). exact H.
  - intros env u. unfold updateProduct. destruct (isAdmin st); cbn [negb]; [|exact H].
    destruct (includes (categories st) (Product.category u)) eqn:E; cbn [negb];
      [exact H|].
    apply (categories_addCategory_nodup (Product.category u)
             (setProducts _ st)). exact H.
Qed.

Lemma categories_stay_distinct_witness :
  NoDup (categories stAdmin) /\ NoDup (categories (deleteCategory "General" stAdmin)).
Proof.
  assert (H : NoDup (categories stAdmin)) by (repeat constructor; intros []).
  split; [exact H|].
  destruct (categories_stay_distinct stAdmin H) as (_ & _ & W & _).
  exact (W "General"%string).
Defined.

(** X4.  For an ADMIN, addCategory of a name that is not yet present gives
    the old categories plus the name, arranged in ascending code-unit order;
    adding a name that is present changes nothing, so adding twice is the
    same as adding once. *)
Theorem addCategory_sorted_insert (name : string) (st : AppState)
    (H : isAdmin st = true) :
  (In name (categories st) -> addCategory name st = st) /\
  (~ In name (categories st) ->
     Permutation (categories (addCategory name st)) (name :: categories st) /\
     Sorted (fun a b => default_cmp a b <= 0) (categories (addCategory name st))) /\
  addCategory name (addCategory name st) = addCategory name st /\
  products (addCategory name st) = products st.
Proof.
  assert (Hin : In name (categories st) -> addCategory name st = st).
  { intros Hi. unfold addCategory. rewrite H. cbn [negb].
    apply includes_In in Hi. rewrite Hi. reflexivity. }
  split; [exact Hin|]. split; [|split; [|apply products_addCategory]].
  - intros Hn. unfold addCategory. rewrite H. cbn [negb].
    apply includes_false in Hn. rewrite Hn. cbn -[js_sort]. split.
    + rewrite js_sort_perm. symmetry. apply Permutation_cons_append.
    + apply js_sort_sorted. apply default_cmp_anti.
  - destruct (includes (categories st) name) eqn:E.
    + apply includes_In in E. rewrite (Hin E). exact (Hin E).
    + set (st1 := addCategory name st).
      assert (A1 : isAdmin st1 = true).
      { subst st1. unfold addCategory. rewrite H, E. exact H. }
      assert (I1 : includes (categories st1) name = true).
      { subst st1. unfold addCategory. rewrite H, E. cbn -[js_sort includes].
        apply includes_In, js_sort_In, in_or_app. right. left. reflexivity. }
      unfold addCategory at 1. rewrite A1, I1. reflexivity.
Qed.

Lemma addCategory_sorted_insert_witness :
  isAdmin stAdmin = true /\
  categories (addCategory "Drinks" stAdmin) = ["Drinks"; "General"]%string /\
  Sorted (fun a b => default_cmp a b <= 0) (categories (addCategory "Drinks" stAdmin)).
Proof.
  split; [reflexivity|]. split; [reflexivity|].
  destruct (addCategory_sorted_insert "Drinks" stAdmin eq_refl) as (_ & W & _).
  apply W. intros [E|[]]. discriminate E.
Defined.

Lemma categories_addCategory_has name st :
  isAdmin st = true -> In name (categories (addCategory name st)).
Proof.
  intros H. unfold addCategory. rewrite H. cbn [negb].
  destruct (includes (categories st) name) eqn:E; cbn -[js_sort].
  - apply includes_In, E.
  - apply js_sort_In, in_or_app. right. left. reflexivity.
Qed.

Lemma stores_addCategory name st :
  (sales (addCategory name st), customers (addCategory name st))
  = (sales st, customers st).
Proof.
  unfold addCategory. destruct (isAdmin st); [|reflexivity].
  destruct (includes (categories st) name); reflexivity.
Qed.

(** X5.  For an ADMIN, addProduct puts the product last in the catalogue
    with a ledger of exactly one INITIAL entry whose amount and balance are
    the product's stock, whatever history the submitted product carries; the
    other products keep their places, and afterwards the product's category
    is one of the categories. *)
Theorem addProduct_starts_ledger (env : Env) (p : Product.t) (st : AppState)
    (H : isAdmin st = true) :
  let st' := addProduct env p st in
  exists p',
    products st' = products st ++ [p'] /\
    p' = Product.with_history p (Product.stockHistory p') /\
    ledgerView p' = [(INITIAL, Product.stock p, Product.stock p)] /\
    ledger_ok p' /\
    In (Product.category p) (categories st') /\
    sales st' = sales st /\ customers st' = customers st.
Proof.
  cbv zeta.
  exists (Product.with_history p
            [StockLog.mk ("LOG-" ++ msNow env ++ "-" ++ rand5 env) (isoNow env)
               INITIAL (Product.stock p) (Product.stock p) None]).
  unfold addProduct. rewrite H. cbn [negb].
  destruct (includes (categories st) (Product.category p)) eqn:E; cbn [negb].
  - cbn. repeat split. apply includes_In, E.
  - rewrite products_addCategory. split; [reflexivity|]. split; [reflexivity|].
    split; [reflexivity|]. split; [cbn; repeat split|].
    split; [apply categories_addCategory_has; exact H|].
    pose proof (stores_addCategory (Product.category p)
                  (setProducts (fun prev => prev ++
                     [Product.with_history p
                        [StockLog.mk ("LOG-" ++ msNow env ++ "-" ++ rand5 env) (isoNow env)
                           INITIAL (Product.stock p) (Product.stock p) None]]) st)) as S.
    injection S as S1 S2. split; assumption.
Qed.

Lemma addProduct_starts_ledger_witness :
  isAdmin stEmpty = true /\
  exists p', products (addProduct env0 prodN stEmpty) = [p'] /\
    ledgerView p' = [(INITIAL, 3, 3)].
Proof.
  split; [reflexivity|].
  destruct (addProduct_starts_ledger env0 prodN stEmpty eq_refl)
    as (p' & Hp & _ & Hl & _).
  exists p'. split; [exact Hp|exact Hl].
Defined.

(** X6.  For an ADMIN, renameCategory to a name that is already a category
    changes nothing.  Otherwise, with the two names different, every product
    of the old category is moved to the new one with its other fields as
    they were, no product and no category keeps the old name, and the new
    name is a category when the old one was. *)
Theorem renameCategory_moves_products (oldName newName : string) (st : AppState)
    (H : isAdmin st = true) :
  let st' := renameCategory oldName newName st in
  (In newName (categories st) -> st' = st) /\
  (~ In newName (categories st) -> oldName <> newName ->
     products st'
     = map (fun p => if String.eqb (Product.category p) oldName
                     then Product.with_category p newName else p) (products st) /\
     Forall (fun p => Product.category p <> oldName) (products st') /\
     map Product.stock (products st') = map Product.stock (products st) /\
     ~ In oldName (categories st') /\
     (In oldName (categories st) -> In newName (categories st'))).
Proof.
  cbv zeta. unfold renameCategory. rewrite H. cbn [negb]. split.
  - intros Hi. apply includes_In in Hi. rewrite Hi. reflexivity.
  - intros Hn Hne. apply includes_false in Hn. rewrite Hn.
    cbn -[js_sort]. split; [reflexivity|]. split; [|split; [|split]].
    + rewrite Forall_map. apply Forall_forall. intros p _.
      destruct (String.eqb_spec (Product.category p) oldName) as [E|N];
        [cbn; congruence|exact N].
    + rewrite map_map. apply map_ext. intros p.
      destruct (String.eqb _ _); reflexivity.
    + rewrite js_sort_In, in_map_iff. intros (c & Hc & _).
      destruct (String.eqb_spec c oldName); congruence.
    + intros Ho. rewrite js_sort_In, in_map_iff. exists oldName.
      rewrite String.eqb_refl. split; [reflexivity|exact Ho].
Qed.

Lemma renameCategory_moves_products_witness :
  isAdmin stAdmin = true /\
  Forall (fun p => Product.category p <> "General"%string)
    (products (renameCategory "General" "Office" stAdmin)).
Proof.
  split; [reflexivity|].
  destruct (renameCategory_moves_products "General" "Office" stAdmin eq_refl)
    as (_ & W).
  apply W.
  - intros [E|[]]. discriminate E.
  - discriminate.
Defined.

(** X7.  For an ADMIN, deleteCategory of a name other than General removes
    the name from the categories, moves its products to General with stock
    and ledger untouched, and leaves General among the categories, adding it
    when it was missing. *)
Theorem deleteCategory_falls_back_to_General (name : string) (st : AppState)
    (H : isAdmin st = true) (Hg : name <> "General"%string) :
  let st' := deleteCategory name st in
  ~ In name (categories st') /\
  In "General"%string (categories st') /\
  (forall c, c <> name -> In c (categories st) -> In c (categories st')) /\
  products st'
  = map (fun p => if String.eqb (Product.category p) name
                  then Product.with_category p "General" else p) (products st) /\
  Forall (fun p => Product.category p <> name) (products st') /\
  map (fun p => (Product.id p, Product.stock p, Product.stockHistory p)) (products st')
  = map (fun p => (Product.id p, Product.stock p, Product.stockHistory p)) (products st).
Proof.
  cbv zeta. unfold deleteCategory. rewrite H. cbn [negb].
  assert (P : forall cs,
            products (if negb (includes (categories st) "General")
                      then setCategories cs
                             (setProducts (map (fun p =>
                                if String.eqb (Product.category p) name
                                then Product.with_category p "General" else p))
                                (setCategories (filter (fun c => negb (String.eqb c name))) st))
                      else setProducts (map (fun p =>
                                if String.eqb (Product.category p) name
                                then Product.with_category p "General" else p))
                             (setCategories (filter (fun c => negb (String.eqb c name))) st))
            = map (fun p => if String.eqb (Product.category p) name
                            then Product.with_category p "General" else p) (products st)).
  { intros cs. destruct (negb _); reflexivity. }
  rewrite P. clear P.
  assert (F : forall c, In c (filter (fun c => negb (String.eqb c name)) (categories st))
                        <-> In c (categories st) /\ c <> name).
  { intros c. rewrite filter_In, negb_true_iff, String.eqb_neq. reflexivity. }
  destruct (includes (categories st) "General") eqn:E; cbn -[js_sort].
  - apply includes_In in E. split; [|split; [|split; [|split; [|split]]]].
    + rewrite F. tauto.
    + apply F. split; [exact E|]. congruence.
    + intros c Hc Hi. apply F. tauto.
    + reflexivity.
    + rewrite Forall_map. apply Forall_forall. intros p _.
      destruct (String.eqb_spec (Product.category p) name) as [Ec|N];
        [cbn; congruence|exact N].
    + rewrite map_map. apply map_ext. intros p. destruct (String.eqb _ _); reflexivity.
  - split; [|split; [|split; [|split; [|split]]]].
    + rewrite js_sort_In. intros [Eg|Hin]; [congruence|].
      apply filter_In in Hin. destruct Hin as [Hin _]. apply F in Hin. tauto.
    + apply js_sort_In. left. reflexivity.
    + intros c Hc Hi. apply js_sort_In. right.
      apply filter_In. split; [apply F; tauto|].
      apply negb_true_iff, String.eqb_neq, Hc.
    + reflexivity.
    + rewrite Forall_map. apply Forall_forall. intros p _.
      destruct (String.eqb_spec (Product.category p) name) as [Ec|N];
        [cbn; congruence|exact N].
    + rewrite map_map. apply map_ext. intros p. destruct (String.eqb _ _); reflexivity.
Qed.

Lemma deleteCategory_falls_back_to_General_witness :
  isAdmin stOffice = true /\
  categories stOffice = ["Office"%string] /\
  map Product.category (products stOffice) = ["Office"%string; "Office"%string] /\
  ~ In "Office"%string (categories (deleteCategory "Office" stOffice)) /\
  In "General"%string (categories (deleteCategory "Office" stOffice)) /\
  categories (deleteCategory "Office" stOffice) = ["General"%string] /\
  Forall (fun p => Product.category p <> "Office"%string)
    (products (deleteCategory "Office" stOffice)) /\
  map Product.category (products (deleteCategory "Office" stOffice))
  = ["General"%string; "General"%string].
Proof.
  assert (N : "Office"%string <> "General"%string) by discriminate.
  destruct (deleteCategory_falls_back_to_General "Office" stOffice eq_refl N)
    as (W1 & W2 & _ & _ & W5 & _).
  split; [reflexivity|]. split; [reflexivity|]. split; [reflexivity|].
  split; [exact W1|]. split; [exact W2|]. split; [reflexivity|].
  split; [exact W5|reflexivity].
Defined.

(** ** Customers *)

Lemma find_some_in {T} (f : T -> bool) xs x : find f xs = Some x -> In x xs /\ f x = true.
Proof. apply find_some. Qed.

Lemma customers_saveCustomer c st :
  customers (saveCustomer c st)
  = match find (fun x => String.eqb (Customer.id x) (Customer.id c)) (customers st) with
    | Some _ => map (fun x => if String.eqb (Customer.id x) (Customer.id c) then c else x)
                  (customers st)
    | None => customers st ++ [c]
    end.
Proof. reflexivity. Qed.

Lemma find_app_last {T} (f : T -> bool) xs x :
  find f xs = None -> f x = true -> find f (xs ++ [x]) = Some x.
Proof.
  intros Hn Hx. induction xs as [|y r IH]; cbn in *.
  - rewrite Hx. reflexivity.
  - destruct (f y); [discriminate|]. apply IH, Hn.
Qed.

(** X8.  saveCustomer, which any user may call, stores the customer under
    its id: when some stored customer has the id, every record with the id
    is replaced by the customer and the list keeps its length; when none
    has, the customer is put last.  Afterwards the first record with the id
    is the customer, saving the same customer again changes nothing, and
    products, sales and categories are untouched. *)
Theorem saveCustomer_upsert (c : Customer.t) (st : AppState) :
  let st' := saveCustomer c st in
  let hasId := fun x => String.eqb (Customer.id x) (Customer.id c) in
  find hasId (customers st') = Some c /\
  (forall x, In x (customers st') ->
     x = c \/ (In x (customers st) /\ Customer.id x <> Customer.id c)) /\
  (find hasId (customers st) = None -> customers st' = customers st ++ [c]) /\
  (find hasId (customers st) <> None ->
     List.length (customers st') = List.length (customers st)) /\
  saveCustomer c st' = st' /\
  products st' = products st /\ sales st' = sales st /\
  categories st' = categories st /\ currentUser st' = currentUser st.
Proof.
  cbv zeta.
  set (hasId := fun x => String.eqb (Customer.id x) (Customer.id c)).
  set (repl := fun x => if String.eqb (Customer.id x) (Customer.id c) then c else x).
  assert (Hc : hasId c = true) by apply String.eqb_refl.
  assert (Frepl : forall l y, find hasId l = Some y -> find hasId (map repl l) = Some c).
  { induction l as [|x r IH]; intros y; cbn [map find]; [discriminate|].
    destruct (hasId x) eqn:E.
    - assert (R : repl x = c) by (unfold repl; unfold hasId in E; rewrite E; reflexivity).
      rewrite R, Hc. reflexivity.
    - assert (R : repl x = x) by (unfold repl; unfold hasId in E; rewrite E; reflexivity).
      rewrite R, E. apply IH. }
  assert (Rrepl : forall l, map repl (map repl l) = map repl l).
  { intros l. rewrite map_map. apply map_ext. intros x. unfold repl.
    destruct (String.eqb (Customer.id x) (Customer.id c)) eqn:E.
    - rewrite String.eqb_refl. reflexivity.
    - rewrite E. reflexivity. }
  assert (First : find hasId (customers (saveCustomer c st)) = Some c).
  { rewrite customers_saveCustomer. fold hasId.
    destruct (find hasId (customers st)) as [y|] eqn:E.
    - apply (Frepl _ y E).
    - apply find_app_last; assumption. }
  split; [exact First|]. split; [|split; [|split; [|split]]].
  - rewrite customers_saveCustomer. fold hasId.
    destruct (find hasId (customers st)) as [y|] eqn:E; intros x Hx.
    + apply in_map_iff in Hx. destruct Hx as (z & Hz & Hin). fold repl in Hz.
      unfold repl in Hz.
      destruct (String.eqb_spec (Customer.id z) (Customer.id c)) as [Ez|Nz].
      * left. congruence.
      * right. subst x. split; assumption.
    + apply in_app_or in Hx. destruct Hx as [Hx|[<-|[]]]; [|left; reflexivity].
      right. split; [exact Hx|].
      apply String.eqb_neq. exact (find_none _ _ E x Hx).
  - intros E. rewrite customers_saveCustomer. fold hasId. rewrite E. reflexivity.
  - intros E. rewrite customers_saveCustomer. fold hasId.
    destruct (find hasId (customers st)); [apply length_map|congruence].
  - unfold saveCustomer at 1. apply (f_equal (fun cs =>
      mkState (currentUser (saveCustomer c st)) (products (saveCustomer c st))
        (sales (saveCustomer c st)) cs (categories (saveCustomer c st)))
      (y := customers (saveCustomer c st))) .
    fold hasId. rewrite First. fold repl.
    rewrite customers_saveCustomer. fold hasId. fold repl.
    destruct (find hasId (customers st)) as [y|] eqn:E.
    + apply Rrepl.
    + rewrite map_app. cbn [map]. f_equal.
      * apply map_fix. intros x Hx. unfold repl.
        pose proof (find_none _ _ E x Hx) as N. unfold hasId in N. rewrite N. reflexivity.
      * unfold repl. rewrite String.eqb_refl. reflexivity.
  - repeat split.
Qed.

Lemma saveCustomer_upsert_witness :
  find (fun x => String.eqb (Customer.id x) (Customer.id custA)) (customers stClerk) = None /\
  customers (saveCustomer custA stClerk) = [custA].
Proof.
  split; [reflexivity|].
  destruct (saveCustomer_upsert custA stClerk) as (_ & _ & W & _).
  exact (W eq_refl).
Defined.

(** ** The sort configuration *)

Lemma ProductKey_eqb_eq a b : ProductKey_eqb a b = true <-> a = b.
Proof. destruct a, b; cbn; split; congruence. Qed.

Lemma findIndex_Some {T} (f : T -> bool) xs i :
  findIndex f xs = Some i -> exists x, nth_error xs i = Some x /\ f x = true.
Proof.
  revert i. induction xs as [|x r IH]; intros i; cbn; [discriminate|].
  destruct (f x) eqn:E.
  - intros [= <-]. exists x. split; [reflexivity|exact E].
  - destruct (findIndex f r) as [j|]; cbn; [|discriminate].
    intros [= <-]. exact (IH j eq_refl).
Qed.

Lemma findIndex_None {T} (f : T -> bool) xs :
  findIndex f xs = None -> forall x, In x xs -> f x = false.
Proof.
  induction xs as [|x r IH]; cbn; [intros _ y []|].
  destruct (f x) eqn:E; [discriminate|].
  destruct (findIndex f r); cbn; [discriminate|].
  intros _ y [<-|Hy]; [exact E|exact (IH eq_refl y Hy)].
Qed.

Lemma map_set_nth {T U} (g : T -> U) i v (xs : list T) x :
  nth_error xs i = Some x -> g v = g x -> map g (set_nth i v xs) = map g xs.
Proof.
  revert i. induction xs as [|y r IH]; intros [|i]; cbn; try discriminate.
  - intros [= ->] E. rewrite E. reflexivity.
  - intros Hn E. rewrite (IH i Hn E). reflexivity.
Qed.

Lemma set_nth_In {T} i (v : T) xs y : In y (set_nth i v xs) -> y = v \/ In y xs.
Proof.
  revert i. induction xs as [|x r IH]; intros [|i]; cbn; try tauto.
  - intros [<-|H]; auto.
  - intros [<-|H]; auto. destruct (IH i H); auto.
Qed.

Lemma splice1_In {T} i (xs : list T) y : In y (splice1 i xs) -> In y xs.
Proof.
  revert i. induction xs as [|x r IH]; intros [|i]; cbn; try tauto.
  intros [<-|H]; auto. right. exact (IH i H).
Qed.

Lemma splice1_NoDup {T U} (g : T -> U) i (xs : list T) :
  NoDup (map g xs) -> NoDup (map g (splice1 i xs)).
Proof.
  revert i. induction xs as [|x r IH]; intros [|i]; cbn; intros H; try exact H.
  - inversion H; assumption.
  - inversion H as [|? ? Hx Hr]; subst. constructor; [|apply IH, Hr].
    rewrite in_map_iff in *. intros (y & Ey & Hy). apply Hx.
    exists y. split; [exact Ey|exact (splice1_In i r y Hy)].
Qed.

(** The next direction of a key that is in the configuration at place [i]. *)
Lemma handleSort_cases k isShift prev :
  handleSort k isShift prev
  = match findIndex (fun c => ProductKey_eqb (key c) k) prev with
    | Some i =>
        match match option_map direction (nth_error prev i) with
              | Some (Some asc) => Some desc
              | Some (Some desc) => None
              | _ => Some asc
              end with
        | Some d => if isShift then set_nth i (mkSort k (Some d)) prev
                    else [mkSort k (Some d)]
        | None => if isShift then splice1 i prev else []
        end
    | None => if isShift then prev ++ [mkSort k (Some asc)] else [mkSort k (Some asc)]
    end.
Proof.
  unfold handleSort.
  destruct (findIndex (fun c => ProductKey_eqb (key c) k) prev) as [i|]; cbv zeta.
  - destruct isShift; cbn [negb];
      destruct (option_map direction (nth_error prev i)) as [[[|]|]|]; reflexivity.
  - destruct isShift; reflexivity.
Qed.

(** X9.  A click on a column header, with or without shift, keeps the sort
    configuration well formed: when no key occurs twice and no entry has a
    null direction before the click, the same holds after it.  A click
    without shift leaves at most the clicked key. *)
Theorem handleSort_keeps_config_wellformed (k : ProductKey) (isShift : bool)
    (prev : list SortConfig)
    (Hk : NoDup (map key prev))
    (Hd : Forall (fun c => direction c <> None) prev) :
  NoDup (map key (handleSort k isShift prev)) /\
  Forall (fun c => direction c <> None) (handleSort k isShift prev) /\
  (isShift = false ->
     (List.length (handleSort k isShift prev) <= 1)%nat /\
     Forall (fun c => key c = k) (handleSort k isShift prev)).
Proof.
  rewrite handleSort_cases.
  destruct (findIndex (fun c => ProductKey_eqb (key c) k) prev) as [i|] eqn:Ei.
  - destruct (findIndex_Some _ _ _ Ei) as (x & Hx & Ex).
    apply ProductKey_eqb_eq in Ex.
    destruct (match option_map direction (nth_error prev i) with
              | Some (Some asc) => Some desc
              | Some (Some desc) => None
              | _ => Some asc
              end) as [d|]; destruct isShift.
    + split; [|split; [|discriminate]].
      * rewrite (map_set_nth key i (mkSort k (Some d)) prev x Hx (eq_sym Ex)).
        exact Hk.
      * apply Forall_forall. intros y Hy. apply set_nth_In in Hy.
        destruct Hy as [->|Hy]; [discriminate|].
        rewrite Forall_forall in Hd. exact (Hd y Hy).
    + split; [repeat constructor; intros []|].
      split; [repeat constructor; discriminate|].
      intros _. split; [cbn; lia|repeat constructor].
    + split; [|split; [|discriminate]].
      * apply splice1_NoDup, Hk.
      * apply Forall_forall. intros y Hy. apply splice1_In in Hy.
        rewrite Forall_forall in Hd. exact (Hd y Hy).
    + split; [constructor|]. split; [constructor|].
      intros _. split; [cbn; lia|constructor].
  - destruct isShift.
    + split; [|split; [|discriminate]].
      * rewrite map_app. cbn. apply NoDup_snoc; [exact Hk|].
        rewrite in_map_iff. intros (y & Ey & Hy).
        pose proof (findIndex_None _ _ Ei y Hy) as N. cbn in N.
        rewrite Ey in N. rewrite ProductKey_eqb_refl in N. discriminate.
      * apply Forall_app. split; [exact Hd|]. repeat constructor. discriminate.
    + split; [repeat constructor; intros []|].
      split; [repeat constructor; discriminate|].
      intros _. split; [cbn; lia|repeat constructor].
Qed.

Lemma handleSort_keeps_config_wellformed_witness :
  NoDup (map key [mkSort KCategory (Some asc); mkSort KName (Some asc)]) /\
  NoDup (map key (handleSort KName true
                    [mkSort KCategory (Some asc); mkSort KName (Some asc)])).
Proof.
  assert (N : NoDup (map key [mkSort KCategory (Some asc); mkSort KName (Some asc)])).
  { repeat constructor; cbn; intuition discriminate. }
  split; [exact N|].
  apply (handleSort_keeps_config_wellformed KName true _ N).
  repeat constructor; discriminate.
Defined.

(** X10.  Plain clicks on one header cycle through ascending, descending and
    unsorted: starting from any configuration, the first click leaves a
    single entry for the key or none, and from a single ascending entry two
    more clicks lead to the empty configuration and a third back to the
    single ascending entry.  A key that is not in the configuration becomes
    the only key by a plain click and the last key by a shift click. *)
Theorem handleSort_plain_click_cycle (k : ProductKey) :
  handleSort k false [] = [mkSort k (Some asc)] /\
  handleSort k false [mkSort k (Some asc)] = [mkSort k (Some desc)] /\
  handleSort k false [mkSort k (Some desc)] = [] /\
  (forall prev,
     (forall c, In c prev -> key c <> k) ->
     handleSort k false prev = [mkSort k (Some asc)] /\
     handleSort k true prev = prev ++ [mkSort k (Some asc)]).
Proof.
  unfold handleSort. cbn. rewrite ProductKey_eqb_refl. cbn.
  repeat (split; [reflexivity|]).
  intros prev Hn.
  assert (E : findIndex (fun c => ProductKey_eqb (key c) k) prev = None).
  { induction prev as [|c r IH]; [reflexivity|].
    cbn. destruct (ProductKey_eqb (key c) k) eqn:Ec.
    - apply ProductKey_eqb_eq in Ec. exfalso. exact (Hn c (or_introl eq_refl) Ec).
    - rewrite IH; [reflexivity|]. intros c' Hc'. apply Hn. right. exact Hc'. }
  rewrite E. split; reflexivity.
Qed.

Lemma handleSort_plain_click_cycle_witness :
  (forall c, In c [mkSort KCategory (Some asc)] -> key c <> KStock) /\
  handleSort KStock true [mkSort KCategory (Some asc)]
  = [mkSort KCategory (Some asc); mkSort KStock (Some asc)].
Proof.
  assert (H : forall c, In c [mkSort KCategory (Some asc)] -> key c <> KStock).
  { intros c [<-|[]]. discriminate. }
  split; [exact H|].
  destruct (handleSort_plain_click_cycle KStock) as (_ & _ & _ & W).
  exact (proj2 (W _ H)).
Defined.

(** ** The cart *)

Lemma NoDup_map_inj_in {T U} (f : T -> U) l a b :
  NoDup (map f l) -> In a l -> In b l -> f a = f b -> a = b.
Proof.
  induction l as [|x r IH]; cbn; [tauto|].
  intros N Ha Hb E. inversion N as [|? ? Hx Hr]; subst.
  destruct Ha as [<-|Ha], Hb as [<-|Hb]; [reflexivity| | |exact (IH Hr Ha Hb E)].
  - exfalso. apply Hx. rewrite E. apply in_map, Hb.
  - exfalso. apply Hx. rewrite <- E. apply in_map, Ha.
Qed.

Lemma find_productId_none (id : string) (c : Cart) :
  find (fun item => String.eqb (SaleItem.productId item) id) c = None ->
  ~ In id (map SaleItem.productId c).
Proof.
  intros H. rewrite in_map_iff. intros (x & Ex & Hx).
  pose proof (find_none _ _ H x Hx) as N. cbn in N.
  rewrite Ex, String.eqb_refl in N. discriminate.
Qed.

Lemma update_first_ids (f : SaleItem.t -> bool) g (c : Cart) :
  (forall x, SaleItem.productId (g x) = SaleItem.productId x) ->
  map SaleItem.productId (update_first f g c) = map SaleItem.productId c.
Proof.
  intros Hg. induction c as [|x r IH]; [reflexivity|].
  cbn. destruct (f x); cbn; [rewrite Hg|rewrite IH]; reflexivity.
Qed.

Lemma updateQuantity_in prods productId delta c y :
  In y (updateQuantity prods productId delta c) ->
  exists x, In x c /\ SaleItem.productId x = SaleItem.productId y /\
    (y = x \/
     SaleItem.productId x = productId /\
     SaleItem.quantity y = Z.max 0 (SaleItem.quantity x + delta) /\
     SaleItem.quantity y <> 0 /\
     SaleItem.quantity y
     <= or0 (option_map Product.stock
               (find (fun p => String.eqb (Product.id p) productId) prods))).
Proof.
  unfold updateQuantity. induction c as [|x r IH]; cbn [map compact]; [intros []|].
  destruct (String.eqb_spec (SaleItem.productId x) productId) as [E|N].
  - destruct (Z.gtb_spec (Z.max 0 (SaleItem.quantity x + delta))
                (or0 (option_map Product.stock
                        (find (fun p => String.eqb (Product.id p) productId) prods))))
      as [G|L].
    + cbn [compact]. intros [<-|Hy].
      * exists x. split; [left; reflexivity|]. split; [reflexivity|left; reflexivity].
      * destruct (IH Hy) as (x' & Hx' & R). exists x'. split; [right; exact Hx'|exact R].
    + destruct (Z.eqb_spec (Z.max 0 (SaleItem.quantity x + delta)) 0) as [Z0|NZ].
      * cbn [compact]. intros Hy.
        destruct (IH Hy) as (x' & Hx' & R). exists x'. split; [right; exact Hx'|exact R].
      * cbn [compact]. intros [<-|Hy].
        -- exists x. split; [left; reflexivity|]. split; [reflexivity|].
           right. cbn. repeat split; assumption.
        -- destruct (IH Hy) as (x' & Hx' & R). exists x'.
           split; [right; exact Hx'|exact R].
  - cbn [compact]. intros [<-|Hy].
    + exists x. split; [left; reflexivity|]. split; [reflexivity|left; reflexivity].
    + destruct (IH Hy) as (x' & Hx' & R). exists x'. split; [right; exact Hx'|exact R].
Qed.

Lemma updateQuantity_ids_nodup prods productId delta c :
  NoDup (map SaleItem.productId c) ->
  NoDup (map SaleItem.productId (updateQuantity prods productId delta c)).
Proof.
  induction c as [|x r IH]; intros N; [constructor|].
  inversion N as [|? ? Hx Hr]; subst.
  assert (Hnot : forall y, In y (updateQuantity prods productId delta r) ->
                           SaleItem.productId y <> SaleItem.productId x).
  { intros y Hy E. destruct (updateQuantity_in _ _ _ _ _ Hy) as (x' & Hx' & Ex' & _).
    apply Hx. rewrite <- E, <- Ex'. apply in_map, Hx'. }
  assert (Cons : forall v, SaleItem.productId v = SaleItem.productId x ->
                   NoDup (map SaleItem.productId
                            (v :: updateQuantity prods productId delta r))).
  { intros v Ev. cbn. constructor; [|apply IH, Hr].
    rewrite in_map_iff. intros (y & Ey & Hy). apply (Hnot y Hy). congruence. }
  unfold updateQuantity in *. cbn [map compact].
  destruct (String.eqb _ _); [|apply Cons; reflexivity].
  destruct (_ >? _); [apply Cons; reflexivity|].
  destruct (_ =? 0); [apply IH, Hr|apply Cons; reflexivity].
Qed.

Lemma addToCart_ids_nodup product c :
  NoDup (map SaleItem.productId c) -> NoDup (map SaleItem.productId (addToCart product c)).
Proof.
  intros N. unfold addToCart.
  destruct (find _ c) as [existing|] eqn:E.
  - destruct (_ >=? _); [exact N|].
    rewrite map_map.
    rewrite (map_ext _ SaleItem.productId); [exact N|].
    intros item. destruct (String.eqb _ _); reflexivity.
  - rewrite map_app. cbn. apply NoDup_snoc; [exact N|].
    apply find_productId_none, E.
Qed.

Lemma addScannedStep_ids_nodup c item :
  NoDup (map SaleItem.productId c) ->
  NoDup (map SaleItem.productId (addScannedStep c item)).
Proof.
  intros N. unfold addScannedStep.
  destruct (ScannedOrderItem.matchedProduct item) as [prod|]; [|exact N].
  destruct (find _ c) eqn:E.
  - rewrite update_first_ids; [exact N|reflexivity].
  - rewrite map_app. cbn. apply NoDup_snoc; [exact N|].
    apply find_productId_none, E.
Qed.

Lemma CartReachable_ids_nodup c : CartReachable c -> NoDup (map SaleItem.productId c).
Proof.
  induction 1 as [|product c _ IH|prods productId delta c _ IH|scanned c _ IH].
  - constructor.
  - apply addToCart_ids_nodup, IH.
  - apply updateQuantity_ids_nodup, IH.
  - unfold addScannedToCart.
    generalize (filter
      (fun i => ScannedOrderItem.selected i &&
                match ScannedOrderItem.matchedProduct i with
                | Some _ => true | None => false end) scanned).
    intros toAdd. revert c IH.
    induction toAdd as [|i r IHr]; intros c N; [exact N|].
    cbn. apply IHr, addScannedStep_ids_nodup, N.
Qed.

(** X11.  A cart built by the cart handlers never holds two lines for the
    same product, and so the stock deduction of [completeSale], which reads
    the first line naming a product, accounts for every line of the sale. *)
Theorem cart_lines_have_distinct_products (c : Cart) (H : CartReachable c) :
  NoDup (map SaleItem.productId c) /\
  forall sale item p, Sale.items sale = c -> In item c ->
    Product.id p = SaleItem.productId item ->
    soldQuantity sale p = SaleItem.quantity item.
Proof.
  pose proof (CartReachable_ids_nodup c H) as N. split; [exact N|].
  intros sale item p Es Hi Ep. unfold soldQuantity. rewrite Es.
  destruct (find (fun it => String.eqb (SaleItem.productId it) (Product.id p)) c)
    as [it|] eqn:E.
  - apply find_some in E. destruct E as (Hit & Eit). apply String.eqb_eq in Eit.
    f_equal. apply (NoDup_map_inj_in SaleItem.productId c); try assumption. congruence.
  - pose proof (find_none _ _ E item Hi) as F. cbn in F.
    rewrite Ep, String.eqb_refl in F. discriminate.
Qed.

Lemma cart_lines_have_distinct_products_witness :
  CartReachable (addToCart prodR (cart pos3)) /\
  NoDup (map SaleItem.productId (addToCart prodR (cart pos3))).
Proof.
  assert (R : CartReachable (addToCart prodR (cart pos3)))
    by (repeat apply cart_add; apply cart_empty).
  split; [exact R|exact (proj1 (cart_lines_have_distinct_products _ R))].
Defined.

Lemma CartBuilt_reachable prods c : CartBuilt prods c -> CartReachable c.
Proof. induction 1; constructor; assumption. Qed.

Lemma find_id_unique prods p :
  NoDup (map Product.id prods) -> In p prods ->
  find (fun q => String.eqb (Product.id q) (Product.id p)) prods = Some p.
Proof.
  intros N Hp.
  destruct (find (fun q => String.eqb (Product.id q) (Product.id p)) prods) as [q|] eqn:E.
  - apply find_some in E. destruct E as (Hq & Eq). apply String.eqb_eq in Eq.
    f_equal. exact (NoDup_map_inj_in Product.id prods q p N Hq Hp Eq).
  - pose proof (find_none _ _ E p Hp) as F. cbn in F.
    rewrite String.eqb_refl in F. discriminate.
Qed.

Lemma posProducts_in prods searchTerm p :
  In p (posProducts prods searchTerm) -> In p prods /\ 0 < Product.stock p.
Proof.
  unfold posProducts. rewrite !filter_In. intros ((Hp & _) & Hs).
  split; [exact Hp|]. apply Z.ltb_lt, Hs.
Qed.

Lemma addToCart_in_stock prods product c :
  NoDup (map Product.id prods) -> In product prods -> 0 < Product.stock product ->
  NoDup (map SaleItem.productId c) ->
  Forall (line_in_stock prods) c -> Forall (line_in_stock prods) (addToCart product c).
Proof.
  intros Np Hp Hs Nc F. pose proof (find_id_unique prods product Np Hp) as Fp.
  unfold addToCart. destruct (find _ c) as [existing|] eqn:E.
  - destruct (Z.geb_spec (SaleItem.quantity existing) (Product.stock product)) as [G|L];
      [exact F|].
    apply find_some in E. destruct E as (He & Ee). apply String.eqb_eq in Ee.
    apply Forall_map_pres; [|exact F]. intros item Hi Hl.
    destruct (String.eqb_spec (SaleItem.productId item) (Product.id product)) as [Ei|Ni];
      [|exact Hl].
    assert (item = existing).
    { apply (NoDup_map_inj_in SaleItem.productId c); try assumption. congruence. }
    subst item. exists product. cbn. rewrite Ei. split; [exact Fp|lia].
  - apply Forall_app. split; [exact F|]. constructor; [|constructor].
    exists product. cbn. split; [exact Fp|lia].
Qed.

Lemma updateQuantity_in_stock prods productId delta c :
  Forall (line_in_stock prods) c ->
  Forall (line_in_stock prods) (updateQuantity prods productId delta c).
Proof.
  intros F. apply Forall_forall. intros y Hy.
  destruct (updateQuantity_in _ _ _ _ _ Hy) as (x & Hx & Ex & [->|(Ep & _ & _ & Hq)]).
  - rewrite Forall_forall in F. exact (F x Hx).
  - rewrite Forall_forall in F. destruct (F x Hx) as (p & Fp & _).
    exists p. rewrite <- Ex. split; [exact Fp|].
    rewrite Ep in Fp. rewrite Fp in Hq. exact Hq.
Qed.

Lemma CartBuilt_in_stock prods c :
  NoDup (map Product.id prods) -> CartBuilt prods c -> Forall (line_in_stock prods) c.
Proof.
  intros Np H.
  induction H as [|searchTerm product c Hp Hc IH|productId delta c Hc IH].
  - constructor.
  - apply posProducts_in in Hp. destruct Hp as (Hp & Hs).
    apply addToCart_in_stock; try assumption.
    apply CartReachable_ids_nodup, (CartBuilt_reachable prods), Hc.
  - apply updateQuantity_in_stock, IH.
Qed.

(** X12.  A sale rung up by hand on the POS screen never oversells.  Stocks
    are whole numbers, the product ids of the catalogue are distinct and no
    stock is negative; the cart was built against that catalogue from the
    product tiles and the quantity buttons alone, without lines taken from a
    scanned order.  Then every line of the cart asks for at most the stock
    of its product, and after [handleFinish] every stock is still
    non-negative. *)
Theorem pos_sale_never_oversells (env : Env) (pos : PosState) (st : AppState)
    (Hids : NoDup (map Product.id (products st)))
    (Hstock : stocks_nonneg (products st))
    (Hcart : CartBuilt (products st) (cart pos)) :
  Forall (line_in_stock (products st)) (cart pos) /\
  stocks_nonneg (products (snd (handleFinish env pos st))).
Proof.
  pose proof (CartBuilt_in_stock _ _ Hids Hcart) as F.
  split; [exact F|].
  unfold handleFinish. destruct (cart pos) as [|i0 r] eqn:Ec; [exact Hstock|].
  cbn [snd]. rewrite products_completeSale.
  unfold stocks_nonneg in *. rewrite Forall_map. rewrite Forall_forall in *.
  intros p Hp. rewrite sellOne_stock. unfold soldQuantity. cbn [buildSale Sale.items].
  rewrite Ec.
  destruct (find (fun item => String.eqb (SaleItem.productId item) (Product.id p))
              (i0 :: r)) as [item|] eqn:E.
  - apply find_some in E. destruct E as (Hi & Ei). apply String.eqb_eq in Ei.
    destruct (F item Hi) as (q & Fq & Hq).
    rewrite Ei, (find_id_unique _ p Hids Hp) in Fq. injection Fq as <-. lia.
  - specialize (Hstock p Hp). lia.
Qed.

Lemma pos_sale_never_oversells_witness :
  CartBuilt (products stAdmin) (cart posR5) /\
  map SaleItem.quantity (cart posR5) = [4] /\
  stocks_nonneg (products (snd (handleFinish env0 posR5 stAdmin))) /\
  map Product.stock (products (snd (handleFinish env0 posR5 stAdmin))) = [10; 0].
Proof.
  assert (B : CartBuilt (products stAdmin) (cart posR5)).
  { repeat (apply (built_add _ ""%string); [right; left; reflexivity|]).
    apply built_empty. }
  split; [exact B|]. split; [reflexivity|]. split; [|reflexivity].
  apply (pos_sale_never_oversells env0 posR5 stAdmin).
  - repeat constructor; cbn; intuition discriminate.
  - repeat constructor; cbn; lia.
  - exact B.
Defined.

(** ** The return form *)

Lemma rec_set_ok sel k v r :
  Forall (entry_ok sel) r -> entry_ok sel (k, v) -> Forall (entry_ok sel) (rec_set k v r).
Proof.
  intros F Hk. induction F as [|[k' v'] r He Fr IH]; cbn.
  - constructor; [exact Hk|constructor].
  - destruct (String.eqb k' k); constructor; assumption.
Qed.

Lemma initialQtys_ok sel :
  Forall return_bound (Sale.items sel) -> Forall (entry_ok sel) (initialQtys (Some sel)).
Proof.
  intros B. unfold initialQtys.
  assert (G : forall l acc, (forall i, In i l -> In i (Sale.items sel)) ->
            Forall (entry_ok sel) acc ->
            Forall (entry_ok sel)
              (fold_left (fun acc item => rec_set (SaleItem.productId item) 0 acc) l acc)).
  { induction l as [|i l IH]; intros acc Hl Ha; [exact Ha|].
    cbn. apply IH; [intros j Hj; apply Hl; right; exact Hj|].
    apply rec_set_ok; [exact Ha|]. split; cbn; [lia|].
    intros item Hi _. rewrite Forall_forall in B. specialize (B item Hi).
    unfold return_bound, returnable in *. lia. }
  apply G; [auto|constructor].
Qed.

Lemma FormReachable_ok st sel h :
  NoDup (map SaleItem.productId (Sale.items sel)) ->
  Forall return_bound (Sale.items sel) ->
  FormReachable st sel h ->
  isAdmin st = true /\ selectedSale h = Some sel /\
  Forall (entry_ok sel) (returnQuantities h).
Proof.
  intros N B. induction 1 as [h Hs Ha|item qty h Hi _ (Ha & Hs & F)].
  - unfold handleReturnClick. rewrite Ha. cbn. rewrite Hs.
    split; [reflexivity|]. split; [reflexivity|]. apply initialQtys_ok, B.
  - cbn. split; [exact Ha|]. split; [exact Hs|].
    apply rec_set_ok; [exact F|]. split; cbn.
    + rewrite Forall_forall in B. specialize (B item Hi).
      unfold clampReturnQty, return_bound, returnable in *. lia.
    + intros item' Hi' E.
      assert (item' = item)
        by (apply (NoDup_map_inj_in SaleItem.productId (Sale.items sel)); assumption).
      subst item'. unfold clampReturnQty. lia.
Qed.

Lemma returnLines_in r ln :
  In ln (returnLines r) ->
  In (ReturnLine.productId ln, ReturnLine.quantity ln) r /\ 0 < ReturnLine.quantity ln.
Proof.
  unfold returnLines. rewrite in_map_iff. intros ([k v] & <- & Hin).
  apply filter_In in Hin. cbn in *. destruct Hin as (Hin & Hp).
  split; [exact Hin|apply Z.ltb_lt, Hp].
Qed.

Lemma returnSale_bounds sel r s :
  Forall (entry_ok sel) r ->
  (Sale.id s = Sale.id sel -> s = sel) ->
  Forall return_bound (Sale.items s) ->
  Forall return_bound (Sale.items (returnSale (Sale.id sel) (returnLines r) s)).
Proof.
  intros F Hu B. unfold returnSale.
  destruct (String.eqb_spec (Sale.id s) (Sale.id sel)) as [E|N]; [|exact B].
  specialize (Hu E). subst s. cbn. apply Forall_map_pres; [|exact B].
  intros item Hi Hb. apply returnItem_bound; [exact Hb|].
  intros ln Hf. apply find_some in Hf. destruct Hf as (Hl & El).
  apply String.eqb_eq in El. apply returnLines_in in Hl. destruct Hl as (Hl & Hp).
  rewrite Forall_forall in F. destruct (F _ Hl) as (_ & Hq). cbn in Hq.
  split; [lia|]. apply Hq; [exact Hi|symmetry; exact El].
Qed.

(** X13.  Returns entered through the return form respect the return bound:
    when the selected sale is a record of the sale store, sale ids are
    distinct, no two lines of the sale name the same product and
    0 <= returnedQuantity <= quantity holds in the store, then after opening
    the form, moving the sliders in any way and submitting, the bound still
    holds in the store. *)
Theorem return_form_keeps_bound (env : Env) (st : AppState) (sel : Sale.t)
    (h : HistoryState)
    (Hsel : In sel (sales st))
    (Hids : NoDup (map Sale.id (sales st)))
    (Hlines : NoDup (map SaleItem.productId (Sale.items sel)))
    (Hb : sale_bounds (sales st))
    (Hform : FormReachable st sel h) :
  sale_bounds (sales (snd (submitReturn env h st))).
Proof.
  unfold sale_bounds in *.
  assert (Bsel : Forall return_bound (Sale.items sel))
    by (rewrite Forall_forall in Hb; exact (Hb sel Hsel)).
  destruct (FormReachable_ok st sel h Hlines Bsel Hform) as (Ha & Hs & F).
  unfold submitReturn. rewrite Ha, Hs. cbn [negb].
  destruct (returnLines (returnQuantities h)) as [|l0 ls] eqn:El; [exact Hb|].
  cbn [snd]. rewrite processReturn_admin by exact Ha. cbn [sales].
  rewrite <- El. apply Forall_map_pres; [|exact Hb].
  intros s Hs' Bs. apply returnSale_bounds; [exact F| |exact Bs].
  intros E. exact (NoDup_map_inj_in Sale.id (sales st) s sel Hids Hs' Hsel E).
Qed.

Lemma return_form_keeps_bound_witness :
  FormReachable stSold soldRecord formP8 /\
  returnLines (returnQuantities formP8) = [ReturnLine.mk "P" 3] /\
  sale_bounds (sales (snd (submitReturn env1 formP8 stSold))).
Proof.
  assert (R : FormReachable stSold soldRecord formP8).
  { apply form_slide; [left; reflexivity|]. apply form_open; reflexivity. }
  split; [exact R|]. split; [reflexivity|].
  apply (return_form_keeps_bound env1 stSold soldRecord).
  - left. reflexivity.
  - repeat constructor. intros [].
  - repeat constructor. intros [].
  - repeat constructor; cbn; lia.
  - exact R.
Defined.

Lemma find_sale_unique sls s :
  NoDup (map Sale.id sls) -> In s sls ->
  find (fun x => String.eqb (Sale.id x) (Sale.id s)) sls = Some s.
Proof.
  intros N Hs.
  destruct (find (fun x => String.eqb (Sale.id x) (Sale.id s)) sls) as [x|] eqn:E.
  - apply find_some in E. destruct E as (Hx & Ex). apply String.eqb_eq in Ex.
    f_equal. exact (NoDup_map_inj_in Sale.id sls x s N Hx Hs Ex).
  - pose proof (find_none _ _ E s Hs) as F. cbn in F.
    rewrite String.eqb_refl in F. discriminate.
Qed.

Lemma returnSale_id saleId returns s : Sale.id (returnSale saleId returns s) = Sale.id s.
Proof. unfold returnSale. destruct (String.eqb _ _); reflexivity. Qed.

Lemma find_map_returnSale saleId returns (g : string -> bool) sls :
  find (fun x => g (Sale.id x)) (map (returnSale saleId returns) sls)
  = option_map (returnSale saleId returns) (find (fun x => g (Sale.id x)) sls).
Proof.
  induction sls as [|s r IH]; [reflexivity|].
  cbn. rewrite returnSale_id. destruct (g (Sale.id s)); [reflexivity|exact IH].
Qed.

Lemma map_fixed_pointwise {T} (f : T -> T) l : map f l = l -> forall x, In x l -> f x = x.
Proof.
  induction l as [|a l IH]; cbn; [intros _ x []|].
  intros [= Ea El] x [<-|Hx]; [exact Ea|exact (IH El x Hx)].
Qed.

(** X14.  After a return is submitted, the sale shown in the details dialog
    is still the record from before the return: [submitReturn] looks the sale
    up in the sale list of the render it belongs to.  The sale store holds
    the updated record, which differs from the one shown as soon as a line of
    the request names a line of the sale, so the dialog goes on offering the
    returnable quantities from before the return. *)
Theorem submitReturn_shows_stale_sale (env : Env) (h : HistoryState) (st : AppState)
    (sel : Sale.t)
    (Ha : isAdmin st = true)
    (Hs : selectedSale h = Some sel)
    (Hsel : In sel (sales st))
    (Hids : NoDup (map Sale.id (sales st)))
    (Hne : returnLines (returnQuantities h) <> []) :
  let returns := returnLines (returnQuantities h) in
  let h' := fst (submitReturn env h st) in
  let st' := snd (submitReturn env h st) in
  selectedSale h' = Some sel /\
  isReturnMode h' = false /\
  find (fun s => String.eqb (Sale.id s) (Sale.id sel)) (sales st')
  = Some (returnSale (Sale.id sel) returns sel) /\
  ((exists item ln, In item (Sale.items sel) /\ In ln returns /\
                    ReturnLine.productId ln = SaleItem.productId item) ->
   returnSale (Sale.id sel) returns sel <> sel).
Proof.
  cbv zeta. unfold submitReturn. rewrite Ha, Hs. cbn [negb].
  destruct (returnLines (returnQuantities h)) as [|l0 ls] eqn:El; [contradiction|].
  cbn [fst snd selectedSale isReturnMode].
  rewrite (find_sale_unique _ _ Hids Hsel).
  split; [reflexivity|]. split; [reflexivity|]. split.
  - rewrite processReturn_admin by exact Ha. cbn [sales].
    rewrite (find_map_returnSale _ _ (fun i => String.eqb i (Sale.id sel))).
    rewrite (find_sale_unique _ _ Hids Hsel). reflexivity.
  - intros (item & ln & Hi & Hl & E) Eq.
    unfold returnSale in Eq. rewrite String.eqb_refl in Eq.
    apply (f_equal Sale.items) in Eq. cbn in Eq.
    pose proof (map_fixed_pointwise _ _ Eq item Hi) as Fx.
    unfold returnItem in Fx.
    destruct (find (fun r => String.eqb (ReturnLine.productId r) (SaleItem.productId item))
                (l0 :: ls)) as [r|] eqn:Ef.
    + apply find_some in Ef. destruct Ef as (Hr & _).
      rewrite <- El in Hr. apply returnLines_in in Hr. destruct Hr as (_ & Hp).
      apply (f_equal (fun i => or0 (SaleItem.returnedQuantity i))) in Fx.
      cbn in Fx. lia.
    + pose proof (find_none _ _ Ef ln Hl) as F. cbn in F.
      rewrite E, String.eqb_refl in F. discriminate.
Qed.

Lemma submitReturn_shows_stale_sale_witness :
  selectedSale (fst (submitReturn env1 formP8 stSold)) = Some soldRecord /\
  map (fun s => map SaleItem.returnedQuantity (Sale.items s))
      (sales (snd (submitReturn env1 formP8 stSold))) = [[Some 3]].
Proof.
  split; [|reflexivity].
  apply (submitReturn_shows_stale_sale env1 formP8 stSold soldRecord).
  - reflexivity.
  - reflexivity.
  - left. reflexivity.
  - repeat constructor. intros [].
  - discriminate.
Defined.

(** ** A sale followed by its full return *)

Lemma sellOne_id env sale p : Product.id (sellOne env sale p) = Product.id p.
Proof. unfold sellOne. destruct (find _ _); reflexivity. Qed.

Lemma fullReturn_lines_sum (l : list SaleItem.t) (pid : string) :
  NoDup (map SaleItem.productId l) ->
  sumZ (map ReturnLine.quantity
          (filter (fun r => String.eqb pid (ReturnLine.productId r))
             (map (fun i => ReturnLine.mk (SaleItem.productId i) (SaleItem.quantity i)) l)))
  = match find (fun item => String.eqb (SaleItem.productId item) pid) l with
    | Some it => SaleItem.quantity it
    | None => 0
    end.
Proof.
  induction l as [|a l IH]; intros N; [reflexivity|].
  inversion N as [|? ? Ha Hl]; subst. cbn [map filter find ReturnLine.productId].
  rewrite (String.eqb_sym pid).
  destruct (String.eqb_spec (SaleItem.productId a) pid) as [E|Ne].
  - cbn [map ReturnLine.quantity].
    change (sumZ (SaleItem.quantity a :: ?l)) with (SaleItem.quantity a + sumZ l).
    rewrite (IH Hl), find_none_all; [lia|].
    intros x Hx. apply String.eqb_neq. intros Ex. apply Ha.
    rewrite E, <- Ex. apply in_map, Hx.
  - apply IH, Hl.
Qed.

Lemma find_fullReturn (l : list SaleItem.t) item :
  NoDup (map SaleItem.productId l) -> In item l ->
  find (fun r => String.eqb (ReturnLine.productId r) (SaleItem.productId item))
    (map (fun i => ReturnLine.mk (SaleItem.productId i) (SaleItem.quantity i)) l)
  = Some (ReturnLine.mk (SaleItem.productId item) (SaleItem.quantity item)).
Proof.
  induction l as [|a l IH]; intros N Hi; [destruct Hi|].
  inversion N as [|? ? Ha Hl]; subst. cbn.
  destruct (String.eqb_spec (SaleItem.productId a) (SaleItem.productId item)) as [E|Ne].
  - destruct Hi as [->|Hi]; [reflexivity|].
    exfalso. apply Ha. rewrite E. apply in_map, Hi.
  - destruct Hi as [->|Hi]; [contradiction|]. apply IH; assumption.
Qed.

(** X15.  Selling and then returning everything restores the stocks: for an
    ADMIN and a sale in which no two lines name the same product,
    [completeSale] followed by [processReturn] of every line in full leaves
    every product with the stock it had, two movements later for the
    products sold; the recorded sale then has every line returned in full
    when its lines carried no returns. *)
Theorem sale_then_full_return_restores_stock (env env' : Env) (sale : Sale.t)
    (st : AppState)
    (Ha : isAdmin st = true)
    (Hlines : NoDup (map SaleItem.productId (Sale.items sale))) :
  let st' := processReturn env' (Sale.id sale) (fullReturn sale) (completeSale env sale st) in
  map Product.stock (products st') = map Product.stock (products st) /\
  map Product.id (products st') = map Product.id (products st) /\
  (Forall (fun i => or0 (SaleItem.returnedQuantity i) = 0) (Sale.items sale) ->
   exists s', nth_error (sales st') 0 = Some s' /\
     List.length (Sale.items s') = List.length (Sale.items sale) /\
     Forall (fun i => returnable i = 0) (Sale.items s')).
Proof.
  cbv zeta.
  assert (Ha' : isAdmin (completeSale env sale st) = true) by exact Ha.
  rewrite processReturn_admin by exact Ha'.
  cbn [products sales]. rewrite products_completeSale, sales_completeSale.
  split; [|split].
  - rewrite !map_map. apply map_ext. intros p.
    destruct (applyReturns_spec env' (Sale.id sale) (fullReturn sale)
                (sellOne env sale p)) as (E & _).
    rewrite E, sellOne_stock.
    rewrite (linesFor_id _ _ p) by apply sellOne_id.
    unfold linesFor, fullReturn. rewrite (fullReturn_lines_sum _ _ Hlines).
    unfold soldQuantity. lia.
  - rewrite !map_map. apply map_ext. intros p.
    assert (G : forall rs q, Product.id (applyReturns env' (Sale.id sale) rs q)
                             = Product.id q).
    { induction rs as [|r rs IH]; intros q; [reflexivity|].
      change (applyReturns env' (Sale.id sale) (r :: rs) q)
        with (applyReturns env' (Sale.id sale) rs (returnOne env' (Sale.id sale) r q)).
      rewrite IH. apply returnOne_id. }
    rewrite G. apply sellOne_id.
  - intros Hz. cbn [map nth_error]. eexists. split; [reflexivity|].
    unfold returnSale. cbn [Sale.with_processedBy Sale.id].
    rewrite String.eqb_refl. cbn [Sale.with_items Sale.items].
    split; [apply length_map|].
    rewrite Forall_map. rewrite Forall_forall in *. intros item Hi.
    unfold returnItem, fullReturn. rewrite (find_fullReturn _ _ Hlines Hi).
    unfold returnable. cbn. rewrite (Hz item Hi). lia.
Qed.

Lemma sale_then_full_return_restores_stock_witness :
  isAdmin stAdmin = true /\
  map Product.stock
    (products (processReturn env1 "SALE-3" (fullReturn (saleOf "SALE-3" [itemP 3; itemR 2]))
                 (completeSale env0 (saleOf "SALE-3" [itemP 3; itemR 2]) stAdmin)))
  = map Product.stock (products stAdmin).
Proof.
  split; [reflexivity|].
  apply (sale_then_full_return_restores_stock env0 env1
           (saleOf "SALE-3" [itemP 3; itemR 2]) stAdmin eq_refl).
  repeat constructor; cbn; intuition discriminate.
Defined.

(** ** Searches *)

Lemma str_includes_empty s : str_includes s "" = true.
Proof. unfold str_includes. destruct s; reflexivity. Qed.

Lemma filter_all {T} (f : T -> bool) l : (forall x, f x = true) -> filter f l = l.
Proof.
  intros H. induction l as [|x r IH]; [reflexivity|].
  cbn. rewrite H, IH. reflexivity.
Qed.

(** X16.  An empty search box hides nothing: the inventory query with an
    empty search term and category All returns every product (in input order
    when no sort key is set, rearranged otherwise), the sales list with an
    empty search term and payment filter All returns every sale, the
    movement report with an empty search returns every movement, and the POS
    screen with an empty search shows every product that is in stock. *)
Theorem empty_search_shows_everything :
  (forall prods, filteredProducts prods "" "All" [] = prods) /\
  (forall prods cfgs, Permutation (filteredProducts prods "" "All" cfgs) prods) /\
  (forall sls, filteredSales sls "" None = sls) /\
  (forall getTime prods,
     filteredMovement getTime prods "" = allStockMovement getTime prods) /\
  (forall prods, posProducts prods "" = filter (fun p => 0 <? Product.stock p) prods).
Proof.
  assert (M : forall p, matchesQuery "" "All" p = true).
  { intros p. unfold matchesQuery. cbn [toLowerCase]. rewrite str_includes_empty.
    reflexivity. }
  split; [|split; [|split; [|split]]].
  - intros prods. unfold filteredProducts. apply filter_all, M.
  - intros prods cfgs. rewrite filteredProducts_sorted, js_sort_perm.
    rewrite filter_all by exact M. reflexivity.
  - intros sls. unfold filteredSales. apply filter_all. intros s.
    cbn [toLowerCase]. rewrite str_includes_empty. reflexivity.
  - intros getTime prods. unfold filteredMovement. apply filter_all. intros c.
    cbn [toLowerCase]. rewrite str_includes_empty. reflexivity.
  - intros prods. unfold posProducts. f_equal. apply filter_all. intros p.
    cbn [toLowerCase]. rewrite str_includes_empty. reflexivity.
Qed.

(** ** The movement report *)

Lemma combinedLogs_length prods :
  List.length (combinedLogs prods)
  = list_sum (map (fun p => List.length (Product.stockHistory p)) prods).
Proof.
  unfold combinedLogs. induction prods as [|p r IH]; [reflexivity|].
  cbn. rewrite length_app, length_map, IH. reflexivity.
Qed.

Lemma combinedLogs_in prods c :
  In c (combinedLogs prods) <->
  exists p, In p prods /\ In (CombinedStockLog.log c) (Product.stockHistory p) /\
            CombinedStockLog.productName c = Product.name p.
Proof.
  unfold combinedLogs. rewrite in_flat_map. split.
  - intros (p & Hp & Hc). apply in_map_iff in Hc. destruct Hc as (l & <- & Hl).
    exists p. cbn. repeat split; assumption.
  - intros (p & Hp & Hl & En). exists p. split; [exact Hp|].
    apply in_map_iff. exists (CombinedStockLog.log c). split; [|exact Hl].
    destruct c; cbn in *. congruence.
Qed.

(** X17.  The movement report lists every movement of every product exactly
    once, each under the name of its product, with later timestamps first;
    movements with the same time stay in catalogue order, newest first
    within a product. *)
Theorem movement_report_complete_newest_first (getTime : string -> Z)
    (prods : list Product.t) :
  let time := fun c => getTime (StockLog.timestamp (CombinedStockLog.log c)) in
  let report := allStockMovement getTime prods in
  Permutation report (combinedLogs prods) /\
  List.length report
  = list_sum (map (fun p => List.length (Product.stockHistory p)) prods) /\
  (forall c, In c report <->
     exists p, In p prods /\ In (CombinedStockLog.log c) (Product.stockHistory p) /\
               CombinedStockLog.productName c = Product.name p) /\
  Sorted (fun a b => time b <= time a) report /\
  (forall t, filter (fun c => time c =? t) report
             = filter (fun c => time c =? t) (combinedLogs prods)).
Proof.
  cbv zeta. unfold allStockMovement.
  set (cmp := fun a b => getTime (StockLog.timestamp (CombinedStockLog.log b))
                         - getTime (StockLog.timestamp (CombinedStockLog.log a))).
  split; [apply js_sort_perm|]. split; [|split; [|split]].
  - rewrite (Permutation_length (js_sort_perm cmp (combinedLogs prods))).
    apply combinedLogs_length.
  - intros c. rewrite js_sort_In. apply combinedLogs_in.
  - assert (S : Sorted (fun u v => cmp u v <= 0) (js_sort cmp (combinedLogs prods))).
    { apply js_sort_sorted. intros a b. unfold cmp. lia. }
    revert S. generalize (js_sort cmp (combinedLogs prods)).
    induction 1 as [|a l _ IH Hh]; constructor; [exact IH|].
    destruct Hh as [|b l Hab]; constructor. unfold cmp in Hab. lia.
  - intros t.
    destruct (existsb (fun c => getTime (StockLog.timestamp (CombinedStockLog.log c)) =? t)
                (combinedLogs prods)) eqn:Ex.
    + apply existsb_exists in Ex. destruct Ex as (x & _ & Ex). apply Z.eqb_eq in Ex.
      pose proof (js_sort_stable cmp) as St.
      assert (Tc : forall x a y, cmp x a = 0 -> cmp x y = cmp a y)
        by (intros u a y; unfold cmp; lia).
      specialize (St Tc x (combinedLogs prods)).
      rewrite (filter_ext _ (fun y => cmp x y =? 0)).
      * rewrite St. apply filter_ext. intros c. unfold cmp. rewrite <- Ex.
        destruct (Z.eqb_spec (getTime (StockLog.timestamp (CombinedStockLog.log c))
                              - getTime (StockLog.timestamp (CombinedStockLog.log x))) 0),
                 (Z.eqb_spec (getTime (StockLog.timestamp (CombinedStockLog.log c)))
                             (getTime (StockLog.timestamp (CombinedStockLog.log x))));
          (reflexivity || lia).
      * intros c. unfold cmp. rewrite <- Ex.
        destruct (Z.eqb_spec (getTime (StockLog.timestamp (CombinedStockLog.log c))
                              - getTime (StockLog.timestamp (CombinedStockLog.log x))) 0),
                 (Z.eqb_spec (getTime (StockLog.timestamp (CombinedStockLog.log c)))
                             (getTime (StockLog.timestamp (CombinedStockLog.log x))));
          (reflexivity || lia).
    + assert (N : forall l, (forall c, In c l -> In c (combinedLogs prods)) ->
                filter (fun c => getTime (StockLog.timestamp (CombinedStockLog.log c)) =? t) l
                = []).
      { induction l as [|c l IH]; intros Hl; [reflexivity|].
        cbn. rewrite IH by (intros c' Hc'; apply Hl; right; exact Hc').
        destruct (_ =? t) eqn:Ec; [|reflexivity].
        assert (existsb (fun c => getTime (StockLog.timestamp (CombinedStockLog.log c)) =? t)
                  (combinedLogs prods) = true).
        { apply existsb_exists. exists c. split; [apply Hl; left; reflexivity|exact Ec]. }
        congruence. }
      rewrite (N (combinedLogs prods)) by auto.
      apply N. intros c Hc. apply js_sort_In in Hc. exact Hc.
Qed.

(** ** Confirming a scanned voucher *)

Lemma addProductIn_same_render env p st : addProductIn st env p st = addProduct env p st.
Proof.
  unfold addProductIn, addProduct.
  destruct (isAdmin st) eqn:Ea; [|reflexivity]. cbn [negb].
  destruct (includes (categories st) (Product.category p)) eqn:Ei; [reflexivity|].
  cbn [negb]. unfold addCategoryIn, addCategory.
  rewrite isAdmin_setProducts, Ea. cbn [negb].
  change (categories (setProducts ?f st)) with (categories st).
  rewrite Ei. reflexivity.
Qed.

Lemma confirmStep_effect render cur pick :
  isAdmin render = true -> ~ In "General"%string (categories render) ->
  let new := negb (truthy (ScannedItem.matchedId (snd pick))) in
  count_occ string_dec (categories (confirmStep render cur pick)) "General"%string
  = (count_occ string_dec (categories cur) "General"%string + if new then 1 else 0)%nat /\
  List.length (products (confirmStep render cur pick))
  = (List.length (products cur) + if new then 1 else 0)%nat.
Proof.
  intros Ha Hg. destruct pick as [se item]. cbn [snd confirmStep].
  destruct (truthy (ScannedItem.matchedId item)); cbn [negb].
  - unfold restockProductIn. rewrite Ha. cbn. rewrite length_map. lia.
  - unfold addProductIn, addCategoryIn. rewrite Ha. cbn [negb scannedProduct Product.category].
    apply includes_false in Hg. rewrite Hg. cbn -[js_sort count_occ]. split.
    + rewrite (proj1 (Permutation_count_occ string_dec _ _)
                 (js_sort_perm default_cmp (categories cur ++ ["General"%string]))
                 "General"%string).
      rewrite count_occ_app. cbn [count_occ].
      destruct (string_dec "General"%string "General"%string); [reflexivity|contradiction].
    + rewrite length_app. reflexivity.
Qed.

(** X18.  Confirming a scanned voucher while General is not among the
    categories adds General once for every selected item that matched no
    product, because every [addProduct] call of the batch tests the category
    list of the same render: the catalogue grows by one product per such
    item, General occurs that many times in the category list, and with two
    or more such items the list has a duplicate. *)
Theorem confirmRestock_repeats_General (scannedItems : list (ScanEnv * ScannedItem.t))
    (st : AppState)
    (Ha : isAdmin st = true)
    (Hg : ~ In "General"%string (categories st)) :
  let st' := confirmRestock scannedItems st in
  count_occ string_dec (categories st') "General"%string = List.length (newItems scannedItems) /\
  List.length (products st')
  = (List.length (products st) + List.length (newItems scannedItems))%nat /\
  ((2 <= List.length (newItems scannedItems))%nat -> ~ NoDup (categories st')).
Proof.
  cbv zeta. unfold confirmRestock, newItems. rewrite Ha. cbn [negb].
  assert (C0 : count_occ string_dec (categories st) "General"%string = 0%nat)
    by (apply count_occ_not_In; exact Hg).
  assert (G : forall l cur,
            count_occ string_dec (categories (fold_left (confirmStep st) l cur)) "General"%string
            = (count_occ string_dec (categories cur) "General"%string
               + List.length (filter (fun pick =>
                    negb (truthy (ScannedItem.matchedId (snd pick)))) l))%nat /\
            List.length (products (fold_left (confirmStep st) l cur))
            = (List.length (products cur)
               + List.length (filter (fun pick =>
                    negb (truthy (ScannedItem.matchedId (snd pick)))) l))%nat).
  { induction l as [|pick l IH]; intros cur; cbn [fold_left filter].
    - cbn. lia.
    - destruct (IH (confirmStep st cur pick)) as (I1 & I2).
      destruct (confirmStep_effect st cur pick Ha Hg) as (E1 & E2).
      cbv zeta in E1, E2. rewrite I1, I2, E1, E2.
      destruct (negb (truthy (ScannedItem.matchedId (snd pick)))); cbn [List.length]; lia. }
  destruct (G (filter (fun pick => ScannedItem.selected (snd pick)) scannedItems) st)
    as (G1 & G2).
  rewrite G1, G2, C0. split; [reflexivity|]. split; [reflexivity|].
  intros H2 N. rewrite (NoDup_count_occ string_dec) in N.
  specialize (N "General"%string). rewrite G1, C0 in N. lia.
Qed.

Lemma confirmRestock_repeats_General_witness :
  isAdmin stNoCategories = true /\
  categories (confirmRestock [scanA; scanB] stNoCategories) = ["General"; "General"]%string /\
  ~ NoDup (categories (confirmRestock [scanA; scanB] stNoCategories)).
Proof.
  split; [reflexivity|]. split; [reflexivity|].
  destruct (confirmRestock_repeats_General [scanA; scanB] stNoCategories eq_refl)
    as (_ & _ & W).
  - intros [].
  - apply W. cbn. lia.
Defined.

(** ** Editing a product *)

Lemma updateOne_idem env updated p :
  updateOne env updated (updateOne env updated p) = updateOne env updated p.
Proof.
  destruct (String.eqb (Product.id p) (Product.id updated)) eqn:E.
  - assert (Eh : exists h, updateOne env updated p = Product.with_history updated h).
    { unfold updateOne. rewrite E. destruct (negb _); eexists; reflexivity. }
    destruct Eh as (h & Eh). rewrite Eh. unfold updateOne. cbn.
    rewrite String.eqb_refl, Z.eqb_refl. reflexivity.
  - assert (Ep : updateOne env updated p = p)
      by (unfold updateOne; rewrite E; reflexivity).
    rewrite !Ep. reflexivity.
Qed.

(** X19.  Saving the same edit twice is the same as saving it once: the
    second [updateProduct] finds the stock already equal and writes no
    further movement, and the category is already known.  After the edit
    every product with the edited id carries the submitted stock, also a
    negative one, since this path does not clamp. *)
Theorem updateProduct_idempotent (env : Env) (updated : Product.t) (st : AppState) :
  updateProduct env updated (updateProduct env updated st) = updateProduct env updated st /\
  (isAdmin st = true ->
   forall p', In p' (products (updateProduct env updated st)) ->
     Product.id p' = Product.id updated -> Product.stock p' = Product.stock updated).
Proof.
  split.
  - destruct (isAdmin st) eqn:Ea.
    + set (st1 := setProducts (map (updateOne env updated)) st).
      assert (P1 : map (updateOne env updated) (products st1) = products st1).
      { subst st1. cbn. rewrite map_map. apply map_ext. intros p. apply updateOne_idem. }
      destruct (includes (categories st) (Product.category updated)) eqn:Ei.
      * assert (E1 : updateProduct env updated st = st1)
          by (unfold updateProduct; rewrite Ea, Ei; reflexivity).
        rewrite E1. unfold updateProduct. change (isAdmin st1) with (isAdmin st).
        change (categories st1) with (categories st). rewrite Ea, Ei. cbn [negb].
        apply setProducts_same, P1.
      * set (st2 := addCategory (Product.category updated) st1).
        assert (E1 : updateProduct env updated st = st2)
          by (unfold updateProduct; rewrite Ea, Ei; reflexivity).
        assert (A2 : isAdmin st2 = true).
        { subst st2. unfold addCategory. change (isAdmin st1) with (isAdmin st).
          rewrite Ea. cbn [negb]. destruct (negb _); exact Ea. }
        assert (I2 : includes (categories st2) (Product.category updated) = true).
        { apply includes_In. subst st2. apply categories_addCategory_has. exact Ea. }
        rewrite E1. unfold updateProduct. rewrite A2, I2. cbn [negb].
        apply setProducts_same. subst st2. rewrite products_addCategory. exact P1.
    + assert (E1 : updateProduct env updated st = st)
        by (unfold updateProduct; rewrite Ea; reflexivity).
      rewrite !E1. reflexivity.
  - intros Ha p' Hp' Eid. unfold updateProduct in Hp'. rewrite Ha in Hp'. cbn [negb] in Hp'.
    assert (Hin : In p' (map (updateOne env updated) (products st))).
    { destruct (includes (categories st) (Product.category updated)); cbn [negb] in Hp';
        [|rewrite products_addCategory in Hp']; exact Hp'. }
    apply in_map_iff in Hin. destruct Hin as (p & <- & _).
    unfold updateOne in *.
    destruct (String.eqb_spec (Product.id p) (Product.id updated)) as [E|N];
      [|contradiction].
    destruct (negb _); reflexivity.
Qed.

Lemma updateProduct_idempotent_witness :
  isAdmin stAdmin = true /\
  map Product.stock
    (products (updateProduct env1 (Product.with_stock prodP (-2) [])
                 (updateProduct env1 (Product.with_stock prodP (-2) []) stAdmin)))
  = [-2; 4] /\
  map ledgerView
    (products (updateProduct env1 (Product.with_stock prodP (-2) [])
                 (updateProduct env1 (Product.with_stock prodP (-2) []) stAdmin)))
  = [[(ADJUSTMENT, -12, -2); (INITIAL, 10, 10)]; [(INITIAL, 4, 4)]].
Proof.
  split; [reflexivity|].
  rewrite (proj1 (updateProduct_idempotent env1 (Product.with_stock prodP (-2) []) stAdmin)).
  split; reflexivity.
Defined.

(** ** Quantities in the cart *)

Lemma updateQuantity_removes prods productId (c : Cart) :
  0 <= or0 (option_map Product.stock
              (find (fun p => String.eqb (Product.id p) productId) prods)) ->
  (forall item, In item c -> SaleItem.productId item = productId ->
                SaleItem.quantity item = 1) ->
  ~ In productId (map SaleItem.productId (updateQuantity prods productId (-1) c)).
Proof.
  intros Hs. unfold updateQuantity. induction c as [|a r IH]; intros H1; [intros []|].
  cbn [map compact].
  assert (Hr : forall item, In item r -> SaleItem.productId item = productId ->
                            SaleItem.quantity item = 1)
    by (intros item Hi; apply H1; right; exact Hi).
  destruct (String.eqb_spec (SaleItem.productId a) productId) as [E|N].
  - rewrite (H1 a (or_introl eq_refl) E).
    change (Z.max 0 (1 + -1)) with 0.
    destruct (Z.gtb_spec 0 (or0 (option_map Product.stock
                (find (fun p => String.eqb (Product.id p) productId) prods)))) as [G|L];
      [lia|].
    change (0 =? 0) with true. cbv iota. exact (IH Hr).
  - cbn [compact map]. intros [E|Hin]; [contradiction|]. exact (IH Hr Hin).
Qed.

(** X20.  The tile and the quantity buttons keep every line of the cart at a
    quantity of 1 or more: a new line starts at 1, the tile only raises a
    line, and the minus button removes a line it would bring to 0 (the stock
    of the product not being negative) instead of keeping it at 0. *)
Theorem cart_quantities_stay_positive (c : Cart)
    (H : Forall (fun item => 1 <= SaleItem.quantity item) c) :
  (forall product, Forall (fun item => 1 <= SaleItem.quantity item) (addToCart product c)) /\
  (forall prods productId delta,
     Forall (fun item => 1 <= SaleItem.quantity item)
       (updateQuantity prods productId delta c)) /\
  (forall prods productId,
     0 <= or0 (option_map Product.stock
                 (find (fun p => String.eqb (Product.id p) productId) prods)) ->
     (forall item, In item c -> SaleItem.productId item = productId ->
                   SaleItem.quantity item = 1) ->
     ~ In productId (map SaleItem.productId (updateQuantity prods productId (-1) c))).
Proof.
  split; [|split].
  - intros product. unfold addToCart. destruct (find _ c).
    + destruct (_ >=? _); [exact H|].
      apply Forall_map_pres; [|exact H]. intros item _ Hi.
      destruct (String.eqb _ _); [cbn; lia|exact Hi].
    + apply Forall_app. split; [exact H|]. repeat constructor. cbn. lia.
  - intros prods productId delta. apply Forall_forall. intros y Hy.
    destruct (updateQuantity_in _ _ _ _ _ Hy) as (x & Hx & _ & [->|(_ & Eq & Nz & _)]).
    + rewrite Forall_forall in H. exact (H x Hx).
    + lia.
  - intros prods productId. apply updateQuantity_removes.
Qed.

Lemma cart_quantities_stay_positive_witness :
  Forall (fun item => 1 <= SaleItem.quantity item) [itemR 1] /\
  updateQuantity (products stAdmin) "R" (-1) [itemR 1] = [].
Proof.
  assert (F : Forall (fun item => 1 <= SaleItem.quantity item) [itemR 1])
    by (repeat constructor; cbn; lia).
  split; [exact F|].
  destruct (cart_quantities_stay_positive [itemR 1] F) as (_ & _ & W).
  specialize (W (products stAdmin) "R"%string).
  destruct (updateQuantity (products stAdmin) "R" (-1) [itemR 1]) as [|y r] eqn:E;
    [reflexivity|].
  exfalso. revert E. vm_compute. discriminate.
Defined.

(** ** Bulk updates *)




(** ** The two sides of a return *)

Lemma lines_sum_unique (returns : list ReturnLine.t) (pid : string) :
  NoDup (map ReturnLine.productId returns) ->
  sumZ (map ReturnLine.quantity
          (filter (fun r => String.eqb pid (ReturnLine.productId r)) returns))
  = match find (fun r => String.eqb (ReturnLine.productId r) pid) returns with
    | Some r => ReturnLine.quantity r
    | None => 0
    end.
Proof.
  induction returns as [|a l IH]; intros N; [reflexivity|].
  inversion N as [|? ? Ha Hl]; subst. cbn [map filter find].
  rewrite (String.eqb_sym pid).
  destruct (String.eqb_spec (ReturnLine.productId a) pid) as [E|Ne].
  - cbn [map].
    change (sumZ (ReturnLine.quantity a :: ?l)) with (ReturnLine.quantity a + sumZ l).
    rewrite (IH Hl), find_none_all; [lia|].
    intros x Hx. apply String.eqb_neq. intros Ex. apply Ha.
    rewrite E, <- Ex. apply in_map, Hx.
  - apply IH, Hl.
Qed.

(** X22.  With at most one line per product in the request, the two sides of
    a return agree: for an ADMIN, the stock a product gains equals the
    returned quantity gained by a line naming that product in a sale with
    the given id. *)
Theorem return_updates_agree (env : Env) (saleId : string)
    (returns : list ReturnLine.t) (st : AppState)
    (Ha : isAdmin st = true)
    (Hu : NoDup (map ReturnLine.productId returns)) :
  let st' := processReturn env saleId returns st in
  forall k p j s i item,
    nth_error (products st) k = Some p ->
    nth_error (sales st) j = Some s -> Sale.id s = saleId ->
    nth_error (Sale.items s) i = Some item ->
    SaleItem.productId item = Product.id p ->
    exists p' s' item',
      nth_error (products st') k = Some p' /\
      nth_error (sales st') j = Some s' /\
      nth_error (Sale.items s') i = Some item' /\
      Product.stock p' - Product.stock p
      = or0 (SaleItem.returnedQuantity item') - or0 (SaleItem.returnedQuantity item).
Proof.
  cbv zeta. intros k p j s i item Hk Hj Es Hi Ep.
  rewrite processReturn_admin by exact Ha. cbn [products sales].
  exists (applyReturns env saleId returns p), (returnSale saleId returns s),
         (returnItem returns item).
  split; [rewrite nth_error_map, Hk; reflexivity|].
  split; [rewrite nth_error_map, Hj; reflexivity|]. split.
  - unfold returnSale. rewrite Es, String.eqb_refl. cbn.
    rewrite nth_error_map, Hi. reflexivity.
  - destruct (applyReturns_spec env saleId returns p) as (E & _). rewrite E.
    unfold linesFor. rewrite (lines_sum_unique _ _ Hu). unfold returnItem. rewrite Ep.
    destruct (find _ returns); cbn; lia.
Qed.

Lemma return_updates_agree_witness :
  isAdmin stSold = true /\
  exists p' s' item',
    nth_error (products (processReturn env1 saleId1 [ReturnLine.mk "P" 2] stSold)) 0
    = Some p' /\
    nth_error (sales (processReturn env1 saleId1 [ReturnLine.mk "P" 2] stSold)) 0
    = Some s' /\
    nth_error (Sale.items s') 0 = Some item' /\
    Product.stock p' - 7 = or0 (SaleItem.returnedQuantity item') - 0.
Proof.
  split; [reflexivity|].
  assert (N : NoDup (map ReturnLine.productId [ReturnLine.mk "P" 2]))
    by (repeat constructor; intros []).
  exact (return_updates_agree env1 saleId1 [ReturnLine.mk "P" 2] stSold eq_refl N
           0%nat (sellOne env0 (saleOf saleId1 [itemP 3]) prodP) 0%nat soldRecord
           0%nat (itemP 3) eq_refl eq_refl eq_refl eq_refl eq_refl).
Defined.

(** ** The low-stock list *)

Lemma lowStockItems_In prods p :
  In p (lowStockItems prods) <-> In p prods /\ Product.stock p <= Product.minStock p.
Proof. unfold lowStockItems. rewrite filter_In, Z.leb_le. reflexivity. Qed.

(** X23.  The low-stock list moves one way under each stock operation: a
    restock by a non-negative amount never puts a product on the list, and a
    sale whose lines have non-negative quantities never takes one off;
    neither changes a minimum stock. *)
Theorem low_stock_moves_one_way (env : Env) (st : AppState) (k : nat) (p : Product.t)
    (Hk : nth_error (products st) k = Some p) :
  (forall id amount, 0 <= amount ->
     exists p', nth_error (products (restockProduct env id amount st)) k = Some p' /\
       Product.minStock p' = Product.minStock p /\
       (In p' (lowStockItems (products (restockProduct env id amount st))) ->
        In p (lowStockItems (products st)))) /\
  (forall sale, Forall (fun item => 0 <= SaleItem.quantity item) (Sale.items sale) ->
     exists p', nth_error (products (completeSale env sale st)) k = Some p' /\
       Product.minStock p' = Product.minStock p /\
       (In p (lowStockItems (products st)) ->
        In p' (lowStockItems (products (completeSale env sale st))))).
Proof.
  pose proof (nth_error_In _ _ Hk) as Hin. split.
  - intros id amount Hpos. unfold restockProduct.
    destruct (isAdmin st); cbn [negb].
    + exists (restockOne env id amount p). split; [cbn; rewrite nth_error_map, Hk; reflexivity|].
      unfold restockOne.
      destruct (String.eqb (Product.id p) id); cbn [Product.with_restock Product.minStock].
      * split; [reflexivity|]. rewrite !lowStockItems_In. cbn. intros (_ & L).
        split; [exact Hin|lia].
      * split; [reflexivity|]. rewrite !lowStockItems_In. intros (_ & L).
        split; [exact Hin|exact L].
    + exists p. split; [exact Hk|]. split; [reflexivity|]. exact (fun H => H).
  - intros sale Hq. exists (sellOne env sale p).
    rewrite products_completeSale.
    split; [rewrite nth_error_map, Hk; reflexivity|].
    assert (Hm : Product.minStock (sellOne env sale p) = Product.minStock p)
      by (unfold sellOne; destruct (find _ _); reflexivity).
    split; [exact Hm|]. rewrite !lowStockItems_In. intros (_ & L). split.
    + apply in_map, Hin.
    + rewrite Hm, sellOne_stock. unfold soldQuantity.
      destruct (find _ (Sale.items sale)) as [item|] eqn:E; [|lia].
      apply find_some in E. destruct E as (Hi & _).
      rewrite Forall_forall in Hq. specialize (Hq item Hi). lia.
Qed.

Lemma low_stock_moves_one_way_witness :
  (nth_error (products stLowR) 1 = Some ribbonLow /\
   Product.stock ribbonLow = 1 /\ Product.stock ribbonOut = 0 /\
   In ribbonLow (lowStockItems (products stLowR)) /\
   In ribbonOut
     (lowStockItems (products (completeSale env1 (saleOf "SALE-5" [itemR 1]) stLowR)))) /\
  (nth_error (products stLowP) 0 = Some paperLow /\
   Product.stock paperLow = 1 /\ Product.stock (restockOne env1 "P" 1 paperLow) = 2 /\
   In (restockOne env1 "P" 1 paperLow)
     (lowStockItems (products (restockProduct env1 "P" 1 stLowP))) /\
   In paperLow (lowStockItems (products stLowP))).
Proof.
  split.
  - assert (L : In ribbonLow (lowStockItems (products stLowR))).
    { apply lowStockItems_In. split; [right; left; reflexivity|].
      apply Z.leb_le. reflexivity. }
    destruct (low_stock_moves_one_way env1 stLowR 1 ribbonLow eq_refl) as (_ & W).
    destruct (W (saleOf "SALE-5" [itemR 1])) as (p' & Hn & _ & Hl);
      [repeat constructor; cbn; lia|].
    assert (E : nth_error (products (completeSale env1 (saleOf "SALE-5" [itemR 1]) stLowR)) 1
                = Some ribbonOut) by reflexivity.
    rewrite E in Hn. injection Hn as <-.
    split; [reflexivity|]. split; [reflexivity|]. split; [reflexivity|].
    split; [exact L|exact (Hl L)].
  - assert (L : In (restockOne env1 "P" 1 paperLow)
                  (lowStockItems (products (restockProduct env1 "P" 1 stLowP)))).
    { apply lowStockItems_In. split; [left; reflexivity|].
      apply Z.leb_le. reflexivity. }
    destruct (low_stock_moves_one_way env1 stLowP 0 paperLow eq_refl) as (W & _).
    destruct (W "P"%string 1) as (p' & Hn & _ & Hl); [lia|].
    assert (E : nth_error (products (restockProduct env1 "P" 1 stLowP)) 0
                = Some (restockOne env1 "P" 1 paperLow)) by reflexivity.
    rewrite E in Hn. injection Hn as <-.
    split; [reflexivity|]. split; [reflexivity|]. split; [reflexivity|].
    split; [exact L|exact (Hl L)].
Defined.
